(** * DownloadCovidDatasets: URL templating and idempotent download

    A shallow embedding of [src/lib/DownloadCovidDatasets.py].  The class is a
    bag of class methods over two pieces of mutable class state (the Parana
    URL template and the default download directory) and the outside world
    (file system, standard output, network, wall clock).  Python strings are
    [string], the class attributes and the world are one explicit state
    record, and every method is a computation in a small state-and-exception
    monad. *)

From Stdlib Require Import Ascii String DecimalString Bool Arith Lia List.
From stdpp Require Import base gmap strings.

(** ** Python [str] operations used by the class *)

Module PyStr.

(** Truthiness of a [str]: only the empty string is falsy. *)
Definition truthy (s : string) : bool :=
  match s with
  | EmptyString => false
  | String _ _ => true
  end.

(** [str.lower] on one character.  Only ASCII capitals move; code units
    above 127 are left alone (no code point outside ASCII lower-cases to a
    letter of "confirmed", "deaths" or "recovered"). *)
Definition lower_char (c : ascii) : ascii :=
  let n := nat_of_ascii c in
  if (65 <=? n)%nat && (n <=? 90)%nat then ascii_of_nat (n + 32) else c.

Fixpoint lower (s : string) : string :=
  match s with
  | EmptyString => EmptyString
  | String c s' => String (lower_char c) (lower s')
  end.

(** [sub in s] *)
Fixpoint str_in (sub s : string) : bool :=
  String.prefix sub s ||
  match s with
  | EmptyString => false
  | String _ s' => str_in sub s'
  end.

(** Occurrence of a single character. *)
Fixpoint char_free (c : ascii) (s : string) : bool :=
  match s with
  | EmptyString => true
  | String a s' => negb (Ascii.eqb a c) && char_free c s'
  end.

(** [s.replace(old, new)]: every non-overlapping occurrence of [old], found
    scanning from the left.  [skip] counts the characters of a matched
    occurrence that are still to be dropped. *)
Fixpoint replace_go (old new : string) (skip : nat) (s : string) : string :=
  match s with
  | EmptyString => EmptyString
  | String c s' =>
      match skip with
      | S k => replace_go old new k s'
      | O =>
          if String.prefix old s
          then new +:+ replace_go old new (String.length old - 1) s'
          else String c (replace_go old new 0 s')
      end
  end.

(** With an empty [old], Python inserts [new] before every character and
    at the end. *)
Fixpoint interleave (new s : string) : string :=
  match s with
  | EmptyString => new
  | String c s' => new +:+ String c (interleave new s')
  end.

Definition replace (old new s : string) : string :=
  match old with
  | EmptyString => interleave new s
  | String _ _ => replace_go old new 0 s
  end.

(** [s.split(sep)] for a non-empty [sep]: the piece before the first
    separator and the list of the pieces after it. *)
Fixpoint split_go (sep : string) (skip : nat) (s : string) : string * list string :=
  match s with
  | EmptyString => (EmptyString, [])
  | String c s' =>
      match skip with
      | S k => split_go sep k s'
      | O =>
          if String.prefix sep s
          then let '(h, t) := split_go sep (String.length sep - 1) s' in
               (EmptyString, h :: t)
          else let '(h, t) := split_go sep 0 s' in
               (String c h, t)
      end
  end.

Definition split (sep s : string) : list string :=
  let '(h, t) := split_go sep 0 s in h :: t.

(** Decimal rendering of a number, and the zero-padded two-digit field of
    [%d] and [%m]. *)
Definition dec (n : nat) : string := NilEmpty.string_of_uint (Nat.to_uint n).

Definition pad2 (n : nat) : string :=
  if (n <? 10)%nat then "0" +:+ dec n else dec n.

End PyStr.

Import PyStr.

Example replace_all_occurrences :
  replace "ab" "X" "abcabab-a" = "XcXX-a".
Proof. reflexivity. Qed.

Example replace_non_overlapping : replace "aa" "b" "aaa" = "ba".
Proof. reflexivity. Qed.

Example replace_empty_old : replace "" "-" "xy" = "-x-y-".
Proof. reflexivity. Qed.

Example split_date : split "/" "05/03/2021" = ["05"; "03"; "2021"].
Proof. reflexivity. Qed.

Example split_edges : split "/" "/a//" = [""; "a"; ""; ""].
Proof. reflexivity. Qed.

Example lower_mixed : lower "DeAths_1" = "deaths_1".
Proof. reflexivity. Qed.

Example pad2_examples : pad2 3 = "03" /\ pad2 12 = "12" /\ dec 2021 = "2021".
Proof. repeat split. Qed.

(** ** Facts about [replace], [split] and the date fields *)

Section StrFacts.

Lemma app_cons a (x y : string) : String a x +:+ y = String a (x +:+ y).
Proof. reflexivity. Qed.

Lemma app_empty_l (y : string) : "" +:+ y = y.
Proof. reflexivity. Qed.

Lemma app_empty_r (x : string) : x +:+ "" = x.
Proof. induction x as [|a x IH]; [reflexivity|]. by rewrite app_cons, IH. Qed.

Lemma app_assoc (x y z : string) : (x +:+ y) +:+ z = x +:+ y +:+ z.
Proof. induction x as [|a x IH]; [reflexivity|]. by rewrite !app_cons, IH. Qed.

Lemma prefix_head_ne a b (o s : string) :
  a ≠ b → String.prefix (String a o) (String b s) = false.
Proof. intros Hne. simpl. destruct (ascii_dec a b); [contradiction|reflexivity]. Qed.

Lemma prefix_head_eq a (o s : string) :
  String.prefix (String a o) (String a s) = String.prefix o s.
Proof. simpl. destruct (ascii_dec a a); [reflexivity|contradiction]. Qed.

Lemma prefix_app (x r : string) : String.prefix x (x +:+ r) = true.
Proof.
  induction x as [|a x IH]; [by destruct r|].
  by rewrite app_cons, prefix_head_eq.
Qed.

Lemma char_free_app c (x y : string) :
  char_free c (x +:+ y) = char_free c x && char_free c y.
Proof.
  induction x as [|a x IH]; [reflexivity|].
  rewrite app_cons. simpl. rewrite IH. by rewrite andb_assoc.
Qed.

Lemma char_free_cons c a (s : string) :
  char_free c (String a s) = true → a ≠ c ∧ char_free c s = true.
Proof.
  simpl. intros [Ha Hs]%andb_true_iff. split; [|done].
  intros ->. by rewrite Ascii.eqb_refl in Ha.
Qed.

(** A string without the first character of [old] has no occurrence of
    [old]. *)
Lemma char_free_str_in c (o s : string) :
  char_free c s = true → str_in (String c o) s = false.
Proof.
  induction s as [|a s IH]; [reflexivity|].
  intros [Hne Hs]%char_free_cons.
  cbn [str_in]. rewrite prefix_head_ne by congruence. by apply IH.
Qed.

(** [replace] leaves a string without occurrences alone. *)
Lemma replace_go_absent (old new s : string) :
  str_in old s = false → replace_go old new 0 s = s.
Proof.
  induction s as [|a s IH]; [reflexivity|].
  cbn [str_in replace_go]. intros [Hp Hs]%orb_false_iff.
  rewrite Hp. f_equal. by apply IH.
Qed.

Lemma replace_absent (old new s : string) :
  str_in old s = false → replace old new s = s.
Proof.
  destruct old as [|c o]; [by destruct s|]. apply replace_go_absent.
Qed.

(** The characters of a matched occurrence are dropped. *)
Lemma replace_go_skip (old new x r : string) :
  replace_go old new (String.length x) (x +:+ r) = replace_go old new 0 r.
Proof.
  induction x as [|a x IH]; [by destruct r|].
  rewrite app_cons. simpl. apply IH.
Qed.

(** The leftmost occurrence, when nothing before it can start a match. *)
Lemma replace_go_first c (o new p r : string) :
  char_free c p = true →
  replace_go (String c o) new 0 (p +:+ String c o +:+ r)
  = p +:+ new +:+ replace_go (String c o) new 0 r.
Proof.
  induction p as [|a p IH].
  - intros _. rewrite !app_empty_l, app_cons.
    cbn [replace_go]. rewrite prefix_head_eq, prefix_app.
    f_equal. replace (String.length (String c o) - 1) with (String.length o)
      by (simpl; lia).
    apply replace_go_skip.
  - intros [Hne Hp]%char_free_cons. rewrite !app_cons.
    cbn [replace_go]. rewrite prefix_head_ne by congruence.
    f_equal. by apply IH.
Qed.

Lemma char_free_uint c (d : Decimal.uint) :
  (nat_of_ascii c < 48 ∨ 57 < nat_of_ascii c) →
  char_free c (NilEmpty.string_of_uint d) = true.
Proof.
  intros Hc.
  assert (Hd : ∀ a, 48 ≤ nat_of_ascii a ≤ 57 → Ascii.eqb a c = false).
  { intros a Ha. apply Ascii.eqb_neq. intros ->. lia. }
  induction d as [|d IH|d IH|d IH|d IH|d IH|d IH|d IH|d IH|d IH|d IH];
    [reflexivity|..]; cbn [NilEmpty.string_of_uint char_free];
    rewrite IH, Hd; try reflexivity; vm_compute; lia.
Qed.

Lemma char_free_dec c n :
  (nat_of_ascii c < 48 ∨ 57 < nat_of_ascii c) → char_free c (dec n) = true.
Proof. apply char_free_uint. Qed.

Lemma char_free_pad2 c n :
  (nat_of_ascii c < 48 ∨ 57 < nat_of_ascii c) → char_free c (pad2 n) = true.
Proof.
  intros Hc. unfold pad2. destruct (n <? 10)%nat; [|by apply char_free_dec].
  rewrite char_free_app, char_free_dec by done. cbn [char_free].
  rewrite !andb_true_r. apply negb_true_iff, Ascii.eqb_neq. intros <-.
  vm_compute in Hc. lia.
Qed.

(** Pieces of a string without [c] are without [c]. *)
Lemma split_go_char_free c (sep : string) (s : string) : ∀ k,
  char_free c s = true →
  char_free c (split_go sep k s).1 = true ∧
  Forall (λ x, char_free c x = true) (split_go sep k s).2.
Proof.
  induction s as [|a s IH]; intros k; [by split|].
  intros [Hne Hs]%char_free_cons. cbn [split_go].
  destruct k as [|k]; [|by apply IH].
  destruct (String.prefix sep (String a s)).
  - destruct (IH (String.length sep - 1) Hs) as [Hh Ht].
    destruct (split_go sep (String.length sep - 1) s) as [h t]. simpl in *.
    split; [done|]. by constructor.
  - destruct (IH 0 Hs) as [Hh Ht].
    destruct (split_go sep 0 s) as [h t]. simpl in *.
    split; [|done]. rewrite Hh, andb_true_r.
    apply negb_true_iff, Ascii.eqb_neq. done.
Qed.

Lemma split_char_free c (sep s : string) :
  char_free c s = true → Forall (λ x, char_free c x = true) (split sep s).
Proof.
  intros Hs. destruct (split_go_char_free c sep s 0 Hs) as [Hh Ht].
  unfold split. destruct (split_go sep 0 s) as [h t]. by constructor.
Qed.

End StrFacts.

(** ** [datetime]: the fields, comparison, one day back, [strftime] *)

Module Datetime.

Record datetime := mkDatetime {
  year : nat; month : nat; day : nat;
  hour : nat; minute : nat; second : nat; microsecond : nat
}.

(** [t.replace(hour=h, minute=m, second=s, microsecond=us)] *)
Definition replace_time (t : datetime) (h m s us : nat) : datetime :=
  {| year := year t; month := month t; day := day t;
     hour := h; minute := m; second := s; microsecond := us |}.

(** Naive datetimes compare field by field, most significant first. *)
Fixpoint lex_ge (a b : list nat) : bool :=
  match a, b with
  | x :: a', y :: b' => if (x =? y)%nat then lex_ge a' b' else (y <? x)%nat
  | _, _ => true
  end.

Definition fields (t : datetime) : list nat :=
  [year t; month t; day t; hour t; minute t; second t; microsecond t].

Definition ge (a b : datetime) : bool := lex_ge (fields a) (fields b).

Definition is_leap (y : nat) : bool :=
  (y mod 4 =? 0)%nat && (negb (y mod 100 =? 0)%nat || (y mod 400 =? 0)%nat).

Definition days_in_month (y m : nat) : nat :=
  match m with
  | 2 => if is_leap y then 29 else 28
  | 4 | 6 | 9 | 11 => 30
  | _ => 31
  end.

(** [t - timedelta(days=1)]; [None] stands for the [OverflowError] raised
    below 0001-01-01. *)
Definition minus_one_day (t : datetime) : option datetime :=
  let at_date y m d :=
    {| year := y; month := m; day := d; hour := hour t; minute := minute t;
       second := second t; microsecond := microsecond t |} in
  if (1 <? day t)%nat then Some (at_date (year t) (month t) (day t - 1))
  else if (1 <? month t)%nat
  then Some (at_date (year t) (month t - 1) (days_in_month (year t) (month t - 1)))
  else if (1 <? year t)%nat then Some (at_date (year t - 1) 12 31)
  else None.

(** The directives the class uses: [%Y] (the year in decimal, four digits
    from year 1000 on), [%m] and [%d] (two digits). *)
Definition directive (d : ascii) (t : datetime) : string :=
  if Ascii.eqb d "Y" then dec (year t)
  else if Ascii.eqb d "m" then pad2 (month t)
  else if Ascii.eqb d "d" then pad2 (day t)
  else String "%" (String d EmptyString).

Fixpoint strftime (fmt : string) (t : datetime) : string :=
  match fmt with
  | EmptyString => EmptyString
  | String c rest =>
      if Ascii.eqb c "%" then
        match rest with
        | String d rest' => directive d t +:+ strftime rest' t
        | EmptyString => String c EmptyString
        end
      else String c (strftime rest t)
  end.

End Datetime.

Import Datetime.

Example strftime_year_month :
  strftime "%Y-%m" (mkDatetime 2021 3 5 16 20 0 0) = "2021-03".
Proof. reflexivity. Qed.

Example strftime_day_month_year :
  strftime "%d_%m_%Y" (mkDatetime 2021 3 5 16 20 0 0) = "05_03_2021".
Proof. reflexivity. Qed.

Example minus_one_day_leap :
  minus_one_day (mkDatetime 2020 3 1 9 0 0 0) = Some (mkDatetime 2020 2 29 9 0 0 0).
Proof. reflexivity. Qed.

Example minus_one_day_new_year :
  minus_one_day (mkDatetime 2021 1 1 9 0 0 0) = Some (mkDatetime 2020 12 31 9 0 0 0).
Proof. reflexivity. Qed.

(** ** Class state, the outside world, and the monad of the methods *)

Inductive exn :=
  | IndexError        (* [date[i]] out of range *)
  | OverflowError     (* date arithmetic below the minimum date *)
  | FileExistsError   (* [os.mkdir] on an existing path *)
  | OSError           (* any other failure of the file system *)
  | URLError.         (* any failure of the network fetch *)

Inductive result (A : Type) :=
  | Ok (a : A)
  | Raise (e : exn).
Arguments Ok {A} a.
Arguments Raise {A} e.

(** The two reassigned class attributes, then the world: directories, files
    with their content, lines printed, the [urlretrieve] calls made so far
    (url, target path), the local clock, and what the environment allows:
    the body a URL serves ([None]: the fetch fails), whether a directory can
    be created, whether a path can be written. *)
Record State := mkState {
  cls_urlParanaDataset : string;
  cls_datasetsDir : string;
  fs_dirs : gset string;
  fs_files : gmap string string;
  stdout : list string;
  fetched : list (string * string);
  clock : datetime;
  remote : string → option string;
  may_create : string → bool;
  may_write : string → bool
}.

Definition set_urlParanaDataset (u : string) (σ : State) : State :=
  mkState u (cls_datasetsDir σ) (fs_dirs σ) (fs_files σ) (stdout σ)
          (fetched σ) (clock σ) (remote σ) (may_create σ) (may_write σ).

Definition set_datasetsDir (d : string) (σ : State) : State :=
  mkState (cls_urlParanaDataset σ) d (fs_dirs σ) (fs_files σ) (stdout σ)
          (fetched σ) (clock σ) (remote σ) (may_create σ) (may_write σ).

Definition set_dirs (ds : gset string) (σ : State) : State :=
  mkState (cls_urlParanaDataset σ) (cls_datasetsDir σ) ds (fs_files σ) (stdout σ)
          (fetched σ) (clock σ) (remote σ) (may_create σ) (may_write σ).

Definition set_files (fs : gmap string string) (σ : State) : State :=
  mkState (cls_urlParanaDataset σ) (cls_datasetsDir σ) (fs_dirs σ) fs (stdout σ)
          (fetched σ) (clock σ) (remote σ) (may_create σ) (may_write σ).

Definition set_stdout (out : list string) (σ : State) : State :=
  mkState (cls_urlParanaDataset σ) (cls_datasetsDir σ) (fs_dirs σ) (fs_files σ) out
          (fetched σ) (clock σ) (remote σ) (may_create σ) (may_write σ).

Definition set_fetched (l : list (string * string)) (σ : State) : State :=
  mkState (cls_urlParanaDataset σ) (cls_datasetsDir σ) (fs_dirs σ) (fs_files σ)
          (stdout σ) l (clock σ) (remote σ) (may_create σ) (may_write σ).

Arguments set_urlParanaDataset _ _ /.
Arguments set_datasetsDir _ _ /.
Arguments set_dirs _ _ /.
Arguments set_files _ _ /.
Arguments set_stdout _ _ /.
Arguments set_fetched _ _ /.

Definition M (A : Type) : Type := State → result A * State.

Definition ret {A} (a : A) : M A := λ σ, (Ok a, σ).

Definition bind {A B} (c : M A) (f : A → M B) : M B := λ σ,
  match c σ with
  | (Ok a, σ') => f a σ'
  | (Raise e, σ') => (Raise e, σ')
  end.

Definition raise {A} (e : exn) : M A := λ σ, (Raise e, σ).

Declare Scope method_scope.
Delimit Scope method_scope with method.
Notation "x ← y ; z" := (bind y (λ x, z))
  (at level 20, y at level 100, z at level 200, only parsing) : method_scope.
Notation "' x ← y ; z" := (bind y (λ x, z))
  (at level 20, x pattern, y at level 100, z at level 200, only parsing) : method_scope.
Notation "x ;; z" := (bind x (λ _, z))
  (at level 100, z at level 200, only parsing, right associativity) : method_scope.
Local Open Scope method_scope.

Definition gets {A} (f : State → A) : M A := λ σ, (Ok (f σ), σ).
Definition modify (f : State → State) : M unit := λ σ, (Ok tt, f σ).

(** *** The library calls *)

(** [print(line)] *)
Definition print (line : string) : M unit :=
  modify (λ σ, set_stdout (stdout σ ++ [line]) σ).

(** [os.path.isdir] and [os.path.isfile]; the empty path names nothing. *)
Definition os_path_isdir (p : string) : M bool :=
  gets (λ σ, truthy p && bool_decide (p ∈ fs_dirs σ)).

Definition os_path_isfile (p : string) : M bool :=
  gets (λ σ, truthy p && bool_decide (p ∈ dom (fs_files σ))).

(** [os.mkdir]: one level, refused on an existing path. *)
Definition os_mkdir (p : string) : M unit := λ σ,
  if negb (truthy p) then (Raise OSError, σ)
  else if bool_decide (p ∈ fs_dirs σ) || bool_decide (p ∈ dom (fs_files σ))
  then (Raise FileExistsError, σ)
  else if may_create σ p then (Ok tt, set_dirs ({[p]} ∪ fs_dirs σ) σ)
  else (Raise OSError, σ).

(** [urlretrieve(url, filename)]: one network call, recorded whether it
    succeeds or not; on success the body replaces the file's content. *)
Definition urlretrieve (url filename : string) : M unit := λ σ,
  let σ1 := set_fetched (fetched σ ++ [(url, filename)]) σ in
  match remote σ url with
  | None => (Raise URLError, σ1)
  | Some body =>
      if truthy filename && negb (bool_decide (filename ∈ fs_dirs σ))
         && may_write σ filename
      then (Ok tt, set_files (<[filename := body]> (fs_files σ1)) σ1)
      else (Raise OSError, σ1)
  end.

(** [datetime.now()] *)
Definition datetime_now : M datetime := gets clock.

(** [l[i]] *)
Definition index (l : list string) (i : nat) : M string :=
  match l !! i with
  | Some x => ret x
  | None => raise IndexError
  end.

(** ** The class [DownloadCovidDatasets] *)

Module DownloadCovidDatasets.

(** Class attributes that no method reassigns. *)
Definition urlHopkinsDatasets : string :=
  "https://raw.githubusercontent.com/CSSEGISandData/COVID-19/master/csse_covid_19_data/csse_covid_19_time_series/time_series_covid19_#VAR1#_global.csv".

Definition urlOwnDatasets : string :=
  "https://raw.githubusercontent.com/FlavioLucasFer/datascience/master/datasets/#VAR1#.csv".

(** Initial values of the two attributes that are reassigned. *)
Definition urlParanaDataset0 : string :=
  "https://www.saude.pr.gov.br/sites/default/arquivos_restritos/files/documento/#VAR1#/informe_epidemiologico_#VAR2#_geral.csv".

Definition datasetsDir0 : string := "./datasets-covid".

Definition __getUrlHopkinsDatasets : M string := ret urlHopkinsDatasets.

Definition getUrlHopkinsGlobalConfirmedCases : M string :=
  u ← __getUrlHopkinsDatasets; ret (replace "#VAR1#" "confirmed" u).

Definition getUrlHopkinsGlobalDeaths : M string :=
  u ← __getUrlHopkinsDatasets; ret (replace "#VAR1#" "deaths" u).

Definition getUrlHopkinsGlobalRecovered : M string :=
  u ← __getUrlHopkinsDatasets; ret (replace "#VAR1#" "recovered" u).

Definition getUrlParanaDataset : M string := gets cls_urlParanaDataset.

Definition __setUrlParanaDataset (yearAndMonth targetDate : string) : M unit :=
  modify (λ σ,
    set_urlParanaDataset
      (replace "#VAR2#" targetDate
         (replace "#VAR1#" yearAndMonth (cls_urlParanaDataset σ))) σ).

Definition __getUrlOwnDatasets : M string := ret urlOwnDatasets.

Definition getDatasetsDir : M string := gets cls_datasetsDir.

Definition setDatasetsDir (datasetsDir : string) : M unit :=
  modify (set_datasetsDir datasetsDir).

(** [d if d else self.__datasetsDir] *)
Definition or_default (d : string) : M string :=
  if truthy d then ret d else gets cls_datasetsDir.

Definition checkDatasetDir (datasetsDir : string) : M bool :=
  datasetsDir ← or_default datasetsDir;
  isdir ← os_path_isdir datasetsDir;
  if isdir then ret true else ret false.

Definition checkDataset (datasetName datasetsDir : string) : M bool :=
  datasetsDir ← or_default datasetsDir;
  let datasetPath := datasetsDir +:+ "/" +:+ datasetName in
  isfile ← os_path_isfile datasetPath;
  if isfile then ret true else ret false.

Definition downloadDataset (url dirToSave csvFileName : string)
    (overwrite : bool) : M string :=
  let datasetPath := dirToSave +:+ "/" +:+ csvFileName in
  dirExists ← checkDatasetDir dirToSave;
  (if negb dirExists then os_mkdir dirToSave
   else print ("The target directory '" +:+ dirToSave +:+ "' already exists."));;
  print ("Url: " +:+ url);;
  present ← checkDataset csvFileName dirToSave;
  (if negb present || overwrite then
     print "Downloading csv file...";;
     urlretrieve url datasetPath;;
     print "Download success!"
   else print ("Csv file '" +:+ csvFileName +:+ "' already downloaded!"));;
  print ("Dataset path: " +:+ datasetPath);;
  ret datasetPath.

(** Lines 286-304 of [downloadParanaDataset]: the two URL fragments
    [(yearAndMonth, targetDate)], from the explicit date or from the clock
    and the 15:00 publication hour. *)
Definition paranaDateFragments (tDate : string) : M (string * string) :=
  if truthy tDate then
    let date := split "/" tDate in
    d2 ← index date 2;
    d1 ← index date 1;
    let yearAndMonth := d2 +:+ "-" +:+ d1 in
    d0 ← index date 0;
    d1 ← index date 1;
    d2 ← index date 2;
    let targetDate := d0 +:+ "_" +:+ d1 +:+ "_" +:+ d2 in
    ret (yearAndMonth, targetDate)
  else
    now ← datetime_now;
    let currentTime :=
      replace_time now (hour now) (minute now) (second now) (microsecond now) in
    let paranaDatasetUpdateHour := replace_time now 15 0 0 0 in
    let yearAndMonth := strftime "%Y-%m" now in
    if ge currentTime paranaDatasetUpdateHour then
      ret (yearAndMonth, strftime "%d_%m_%Y" now)
    else
      match minus_one_day now with
      | Some yesterday => ret (yearAndMonth, strftime "%d_%m_%Y" yesterday)
      | None => raise OverflowError
      end.

Definition downloadParanaDataset (csvFileName tDate dirToSave : string)
    (csvFileNameWithTDate overwrite : bool) : M string :=
  dirToSave ← (if truthy dirToSave then ret dirToSave else getDatasetsDir);
  '(yearAndMonth, targetDate) ← paranaDateFragments tDate;
  __setUrlParanaDataset yearAndMonth targetDate;;
  let csvFileName :=
    if csvFileNameWithTDate then csvFileName +:+ "_" +:+ targetDate +:+ ".csv"
    else csvFileName +:+ ".csv" in
  url ← getUrlParanaDataset;
  downloadDataset url dirToSave csvFileName overwrite.

Definition kind_warning : string :=
  "Kind argument only suports: 'confirmed', 'deaths' or 'recovered' values!".

Definition downloadHopkinsDataset (csvFileName kind dirToSave : string)
    (csvFileNameWithTDate overwrite : bool) : M string :=
  dirToSave ← (if truthy dirToSave then ret dirToSave else getDatasetsDir);
  csvFileName ←
    (if String.eqb (lower kind) "confirmed" then ret (csvFileName +:+ "confirmed_cases")
     else if String.eqb (lower kind) "deaths" then ret (csvFileName +:+ "deaths")
     else if String.eqb (lower kind) "recovered" then ret (csvFileName +:+ "recovered")
     else print kind_warning;; ret csvFileName);
  csvFileName ←
    (if csvFileNameWithTDate then
       now ← datetime_now;
       let today := strftime "%d_%m_%Y" now in
       ret (csvFileName +:+ "_" +:+ today +:+ ".csv")
     else ret (csvFileName +:+ ".csv"));
  confirmedUrl ← getUrlHopkinsGlobalConfirmedCases;
  let url := replace "#VAR1#" kind confirmedUrl in
  downloadDataset url dirToSave csvFileName overwrite.

Definition downloadParanaCitiesWithIBGECodeDataset
    (csvFileName dirToSave : string) (overwrite : bool) : M string :=
  dirToSave ← (if truthy dirToSave then ret dirToSave else getDatasetsDir);
  own ← __getUrlOwnDatasets;
  let url := replace "#VAR1#" "parana_cities_with_ibge_code" own in
  downloadDataset url dirToSave csvFileName overwrite.

Definition downloadParanavaiRegionCitiesWithIBGECodeDataset
    (csvFileName dirToSave : string) (overwrite : bool) : M string :=
  dirToSave ← (if truthy dirToSave then ret dirToSave else getDatasetsDir);
  own ← __getUrlOwnDatasets;
  let url := replace "#VAR1#" "parana_cities_with_ibge_code" own in
  downloadDataset url dirToSave csvFileName overwrite.

(** Default values of the keyword arguments. *)
Definition default_parana_csvFileName : string := "daily_newsletter_covid_parana".
Definition default_hopkins_csvFileName : string := "hopkins_global_".
Definition default_hopkins_kind : string := "confirmed".
Definition default_paranaCities_csvFileName : string :=
  "parana_cities_with_ibge_code.csv".
Definition default_paranavaiRegion_csvFileName : string :=
  "paranavai_region_cities_with_ibge_code.csv".

End DownloadCovidDatasets.

Import DownloadCovidDatasets.

(** A freshly loaded class in a given world. *)
Definition fresh (ds : gset string) (fs : gmap string string) (now : datetime)
    (net : string → option string) : State :=
  mkState urlParanaDataset0 datasetsDir0 ds fs [] [] now net (λ _, true) (λ _, true).

Definition noon_5_march : datetime := mkDatetime 2021 3 5 12 0 0 0.
Definition serve_all : string → option string := λ _, Some "csv".
Definition empty_world : State := fresh ∅ ∅ noon_5_march serve_all.

(** ** Running the methods *)

Ltac unfold_methods :=
  unfold downloadDataset, checkDatasetDir, checkDataset, or_default,
    os_path_isdir, os_path_isfile, os_mkdir, urlretrieve, print,
    getDatasetsDir, getUrlParanaDataset, datetime_now, index,
    bind, ret, raise, gets, modify in *.

Section Checks.

(** The directory the two checks look at. *)
Definition checked_dir (σ : State) (d : string) : string :=
  if truthy d then d else cls_datasetsDir σ.

Lemma checkDatasetDir_run d σ :
  checkDatasetDir d σ
  = (Ok (truthy (checked_dir σ d) && bool_decide (checked_dir σ d ∈ fs_dirs σ)), σ).
Proof.
  unfold_methods. unfold checked_dir.
  destruct (truthy d) eqn:Hd; cbn; rewrite ?Hd;
    by destruct (_ && _).
Qed.

Lemma checkDataset_run name d σ :
  checkDataset name d σ
  = (Ok (truthy (checked_dir σ d +:+ "/" +:+ name)
         && bool_decide (checked_dir σ d +:+ "/" +:+ name ∈ dom (fs_files σ))), σ).
Proof.
  unfold_methods. unfold checked_dir.
  destruct (truthy d) eqn:Hd; cbn; by destruct (_ && _).
Qed.

End Checks.

Section Download.

Lemma path_truthy (d name : string) : truthy (d +:+ "/" +:+ name) = true.
Proof. by destruct d. Qed.

Lemma length_app (x y : string) :
  String.length (x +:+ y) = (String.length x + String.length y)%nat.
Proof. induction x as [|a x IH]; [done|]. rewrite app_cons. simpl. by rewrite IH. Qed.

Lemma path_ne_dir (d name : string) : d +:+ "/" +:+ name ≠ d.
Proof.
  intros H. apply (f_equal String.length) in H.
  rewrite !length_app in H. simpl in H. lia.
Qed.

(** The directory is there or can be made. *)
Definition dir_usable (σ : State) (dir : string) : Prop :=
  (checkDatasetDir dir σ).1 = Ok true ∨ (os_mkdir dir σ).1 = Ok tt.

(** The file is already where [checkDataset] looks for it. *)
Definition file_present (σ : State) (name dir : string) : Prop :=
  (checkDataset name dir σ).1 = Ok true.

(** The network serves the URL and the target path can be written. *)
Definition fetch_possible (σ : State) (url path : string) : Prop :=
  is_Some (remote σ url) ∧ (path ∉ fs_dirs σ) ∧ may_write σ path = true.

Lemma downloadDataset_ok_path url dir name ow σ p σ' :
  downloadDataset url dir name ow σ = (Ok p, σ') → p = dir +:+ "/" +:+ name.
Proof.
  unfold_methods. cbn.
  repeat (case_match; cbn in *; simplify_eq; try done); by intros [= <- _].
Qed.

(** The file is found and [overwrite] is off: no network call, no change
    to the files. *)
Lemma downloadDataset_skip url dir name σ :
  dir_usable σ dir →
  file_present σ name dir →
  ∃ σ', downloadDataset url dir name false σ = (Ok (dir +:+ "/" +:+ name), σ')
        ∧ fetched σ' = fetched σ
        ∧ fs_files σ' = fs_files σ.
Proof.
  unfold dir_usable, file_present.
  rewrite checkDatasetDir_run, checkDataset_run. cbn.
  intros Hdir [= Hfile].
  unfold downloadDataset, bind. rewrite checkDatasetDir_run.
  destruct (truthy (checked_dir σ dir) && bool_decide (checked_dir σ dir ∈ fs_dirs σ))
    eqn:Hex; cbn.
  - rewrite checkDataset_run. unfold checked_dir in *. cbn. rewrite Hfile. cbn.
    by eexists.
  - destruct Hdir as [[=]|Hmk]. revert Hmk. unfold os_mkdir.
    destruct (truthy dir); [|done]. cbn.
    destruct (bool_decide (dir ∈ fs_dirs σ) || bool_decide (dir ∈ dom (fs_files σ)));
      [done|].
    destruct (may_create σ dir); [|done]. intros _. cbn.
    rewrite checkDataset_run. unfold checked_dir in *. cbn. rewrite Hfile. cbn.
    by eexists.
Qed.

(** A fetch that goes through: one more recorded call, and afterwards the
    directory and the file are there. *)
Lemma downloadDataset_fetch url dir name ow σ :
  dir_usable σ dir →
  ¬ file_present σ name dir ∨ ow = true →
  fetch_possible σ url (dir +:+ "/" +:+ name) →
  ∃ σ', downloadDataset url dir name ow σ = (Ok (dir +:+ "/" +:+ name), σ')
        ∧ fetched σ' = fetched σ ++ [(url, dir +:+ "/" +:+ name)]
        ∧ cls_datasetsDir σ' = cls_datasetsDir σ
        ∧ cls_urlParanaDataset σ' = cls_urlParanaDataset σ
        ∧ (checked_dir σ dir ∈ fs_dirs σ')
        ∧ (dir +:+ "/" +:+ name ∈ dom (fs_files σ')).
Proof.
  unfold dir_usable, file_present, fetch_possible.
  rewrite checkDatasetDir_run, checkDataset_run. cbn.
  intros Hdir Hfile ([body Hbody] & Hnd & Hw).
  pose proof (path_ne_dir dir name) as Hne.
  assert (Hgo : negb (truthy (checked_dir σ dir +:+ "/" +:+ name)
             && bool_decide (checked_dir σ dir +:+ "/" +:+ name ∈ dom (fs_files σ)))
           || ow = true).
  { destruct Hfile as [Hfile| ->]; [|by rewrite orb_true_r].
    revert Hfile. generalize (truthy (checked_dir σ dir +:+ "/" +:+ name)
      && bool_decide (checked_dir σ dir +:+ "/" +:+ name ∈ dom (fs_files σ))).
    intros [] ?; [congruence|done]. }
  clear Hfile. unfold downloadDataset, bind.
  rewrite checkDatasetDir_run.
  destruct (truthy (checked_dir σ dir) && bool_decide (checked_dir σ dir ∈ fs_dirs σ))
    eqn:Hex; cbn.
  - rewrite checkDataset_run.
    unfold checked_dir in *. cbn. rewrite Hgo. unfold_methods. cbn.
    rewrite Hbody, Hw, path_truthy, bool_decide_eq_false_2 by done. cbn.
    eexists. split; [reflexivity|]. cbn.
    apply andb_true_iff in Hex as [_ Hex%bool_decide_eq_true].
    repeat split; [done|].
    apply elem_of_dom. rewrite lookup_insert_eq. by eexists.
  - destruct Hdir as [[=]|Hmk]. revert Hmk. unfold os_mkdir.
    unfold checked_dir in *.
    destruct (truthy dir) eqn:Htd; [|done]. cbn.
    destruct (bool_decide (dir ∈ fs_dirs σ) || bool_decide (dir ∈ dom (fs_files σ)));
      [done|].
    destruct (may_create σ dir); [|done]. intros _. cbn.
    rewrite checkDataset_run. unfold checked_dir. cbn. rewrite Htd, Hgo.
    unfold_methods. cbn.
    rewrite Hbody, Hw, path_truthy, bool_decide_eq_false_2; cbn.
    2:{ rewrite not_elem_of_union, not_elem_of_singleton. done. }
    eexists. split; [reflexivity|]. cbn.
    repeat split.
    + apply elem_of_union_l. by apply elem_of_singleton.
    + apply elem_of_dom. rewrite lookup_insert_eq. by eexists.
Qed.

(** Two calls in a row with [overwrite] off: both return the same path, the
    first makes one network call and the second makes none. *)
Definition fetches_once_in_two_calls (url dir name : string) (σ : State) : Prop :=
  ∃ p σ1 σ2,
    downloadDataset url dir name false σ = (Ok p, σ1)
    ∧ downloadDataset url dir name false σ1 = (Ok p, σ2)
    ∧ fetched σ1 = fetched σ ++ [(url, p)]
    ∧ fetched σ2 = fetched σ1.

End Download.


(** ** The existence checks and the download step *)

(** C8: [checkDatasetDir] and [checkDataset] always return a boolean and
    leave the class state and the world exactly as they were; what they
    return is [os.path.isdir] of the directory, respectively
    [os.path.isfile] of the file inside it, where an empty directory argument
    stands for the default directory [__datasetsDir]. *)
Theorem existence_checks_pure_default_fallback (σ : State) (name : string) :
  (∀ d, ∃ b, checkDatasetDir d σ = (Ok b, σ))
  ∧ (∀ d, ∃ b, checkDataset name d σ = (Ok b, σ))
  ∧ (∀ d, checkDatasetDir d σ
          = os_path_isdir (if truthy d then d else cls_datasetsDir σ) σ)
  ∧ (∀ d, checkDataset name d σ
          = os_path_isfile ((if truthy d then d else cls_datasetsDir σ) +:+ "/" +:+ name) σ)
  ∧ checkDatasetDir "" σ = os_path_isdir (cls_datasetsDir σ) σ
  ∧ checkDataset name "" σ = os_path_isfile (cls_datasetsDir σ +:+ "/" +:+ name) σ.
Proof.
  assert (Hd : ∀ d, checkDatasetDir d σ
             = os_path_isdir (if truthy d then d else cls_datasetsDir σ) σ).
  { intros d. by rewrite checkDatasetDir_run. }
  assert (Hf : ∀ d, checkDataset name d σ
             = os_path_isfile ((if truthy d then d else cls_datasetsDir σ) +:+ "/" +:+ name) σ).
  { intros d. by rewrite checkDataset_run. }
  repeat split.
  - intros d. rewrite checkDatasetDir_run. by eexists.
  - intros d. rewrite checkDataset_run. by eexists.
  - exact Hd.
  - exact Hf.
  - exact (Hd "").
  - exact (Hf "").
Qed.

(** C6: whenever [downloadDataset] returns, it returns the path
    [dirToSave/csvFileName]; and it does return whenever the directory is
    there or can be made and either the file is already present with
    [overwrite] off (skipped) or the fetch can go through (fresh download or
    overwrite). *)
Theorem downloadDataset_returns_resolved_path url dir name ow σ :
  (∀ p σ', downloadDataset url dir name ow σ = (Ok p, σ') → p = dir +:+ "/" +:+ name)
  ∧ (dir_usable σ dir →
     (file_present σ name dir ∧ ow = false)
       ∨ fetch_possible σ url (dir +:+ "/" +:+ name) →
     ∃ σ', downloadDataset url dir name ow σ = (Ok (dir +:+ "/" +:+ name), σ')).
Proof.
  split; [intros p σ'; apply downloadDataset_ok_path|].
  intros Hdir [[Hp ->]|Hfetch].
  { destruct (downloadDataset_skip url dir name σ Hdir Hp) as (σ' & H & _). eauto. }
  assert (Hdec : file_present σ name dir ∨ ¬ file_present σ name dir).
  { unfold file_present. rewrite checkDataset_run. cbn.
    generalize (truthy (checked_dir σ dir +:+ "/" +:+ name)
      && bool_decide (checked_dir σ dir +:+ "/" +:+ name ∈ dom (fs_files σ))).
    intros []; [by left|right; congruence]. }
  destruct ow, Hdec as [Hp|Hp].
  - destruct (downloadDataset_fetch url dir name true σ Hdir) as (σ' & H & _); eauto.
  - destruct (downloadDataset_fetch url dir name true σ Hdir) as (σ' & H & _); eauto.
  - destruct (downloadDataset_skip url dir name σ Hdir Hp) as (σ' & H & _). eauto.
  - destruct (downloadDataset_fetch url dir name false σ Hdir) as (σ' & H & _); eauto.
Qed.

Lemma downloadDataset_returns_resolved_path_witness :
  ∃ σ', downloadDataset "u" "d" "f.csv" false empty_world = (Ok "d/f.csv", σ').
Proof.
  apply (proj2 (downloadDataset_returns_resolved_path "u" "d" "f.csv" false empty_world)).
  - right. reflexivity.
  - right. repeat split; [by eexists | apply not_elem_of_empty].
Defined.

(** C5, as amended: for a non-empty directory that is there or can be made
    and a target file not yet present, when the fetch can go through, two
    calls with [overwrite] off make exactly one network call, and the second
    returns the same path without fetching. *)
Theorem downloadDataset_twice_fetches_once url dir name σ :
  dir ≠ "" →
  ¬ file_present σ name dir →
  dir_usable σ dir →
  fetch_possible σ url (dir +:+ "/" +:+ name) →
  fetches_once_in_two_calls url dir name σ.
Proof.
  intros Hne Habsent Hdir Hfetch.
  destruct (downloadDataset_fetch url dir name false σ Hdir (or_introl Habsent) Hfetch)
    as (σ1 & H1 & Hf1 & Hdd & _ & Hd1 & Hfile1).
  assert (Htd : truthy dir = true) by by destruct dir.
  assert (Hc : ∀ s, checked_dir s dir = dir) by (intros s; unfold checked_dir; by rewrite Htd).
  rewrite Hc in Hd1.
  destruct (downloadDataset_skip url dir name σ1) as (σ2 & H2 & Hf2 & _).
  - left. rewrite checkDatasetDir_run, Hc, Htd. cbn.
    by rewrite bool_decide_eq_true_2.
  - unfold file_present. rewrite checkDataset_run, Hc, path_truthy. cbn.
    by rewrite bool_decide_eq_true_2.
  - by exists (dir +:+ "/" +:+ name), σ1, σ2.
Qed.

Lemma downloadDataset_twice_fetches_once_witness :
  fetches_once_in_two_calls "u" "d" "f.csv" empty_world.
Proof.
  apply downloadDataset_twice_fetches_once.
  - done.
  - unfold file_present. vm_compute. discriminate.
  - right. reflexivity.
  - repeat split; [by eexists | apply not_elem_of_empty].
Defined.

(** C5, as stated, fails for the empty directory: the checks then look into
    the default directory while the file is written to [/f.csv], so the
    second call fetches again. *)
Lemma downloadDataset_twice_empty_dir_fetches_twice :
  ¬ fetches_once_in_two_calls "u" "" "f.csv"
      (fresh {["./datasets-covid"]} ∅ noon_5_march serve_all).
Proof.
  intros (p & σ1 & σ2 & H1 & H2 & Hf1 & Hf2).
  apply (f_equal snd) in H1. cbn [snd] in H1. subst σ1.
  apply (f_equal (λ r, fetched r.2)) in H2. cbn beta in H2. cbn [snd] in H2.
  rewrite <- H2 in Hf2. vm_compute in Hf2. discriminate.
Qed.

(** ** The regional (Parana) report: date fragments and the stored URL *)

Definition set_clock (now : datetime) (σ : State) : State :=
  mkState (cls_urlParanaDataset σ) (cls_datasetsDir σ) (fs_dirs σ) (fs_files σ)
          (stdout σ) (fetched σ) now (remote σ) (may_create σ) (may_write σ).

(** The Parana template with both placeholders filled in. *)
Definition paranaUrl (yearAndMonth targetDate : string) : string :=
  "https://www.saude.pr.gov.br/sites/default/arquivos_restritos/files/documento/"
  +:+ yearAndMonth +:+ "/informe_epidemiologico_" +:+ targetDate +:+ "_geral.csv".

(** Neither placeholder token occurs. *)
Definition placeholder_free (u : string) : Prop :=
  str_in "#VAR1#" u = false ∧ str_in "#VAR2#" u = false.

Section Parana.

Lemma set_urlParanaDataset_same σ : set_urlParanaDataset (cls_urlParanaDataset σ) σ = σ.
Proof. by destruct σ. Qed.

Lemma paranaDateFragments_state tDate σ : (paranaDateFragments tDate σ).2 = σ.
Proof.
  unfold paranaDateFragments. destruct (truthy tDate).
  - unfold_methods. repeat case_match; simplify_eq; done.
  - unfold_methods. repeat case_match; simplify_eq; done.
Qed.

(** The cut-off test only looks at the hour. *)
Lemma cutoff_hour (now : datetime) :
  ge (replace_time now (hour now) (minute now) (second now) (microsecond now))
     (replace_time now 15 0 0 0)
  = (15 <=? hour now)%nat.
Proof.
  unfold ge, fields, replace_time. cbn [year month day hour minute second microsecond lex_ge].
  rewrite !Nat.eqb_refl.
  destruct (Nat.eqb_spec (hour now) 15) as [->|Hne].
  - cbn. by repeat case_match.
  - destruct (Nat.ltb_spec 15 (hour now)), (Nat.leb_spec 15 (hour now)); lia || done.
Qed.

Lemma paranaDateFragments_explicit tDate σ d0 d1 d2 :
  truthy tDate = true →
  split "/" tDate !! 0 = Some d0 →
  split "/" tDate !! 1 = Some d1 →
  split "/" tDate !! 2 = Some d2 →
  paranaDateFragments tDate σ
  = (Ok (d2 +:+ "-" +:+ d1, d0 +:+ "_" +:+ d1 +:+ "_" +:+ d2), σ).
Proof.
  intros Ht H0 H1 H2. unfold paranaDateFragments, index, bind, ret.
  by rewrite Ht, H0, H1, H2.
Qed.

Lemma paranaDateFragments_today σ :
  (15 <=? hour (clock σ))%nat = true →
  paranaDateFragments "" σ
  = (Ok (strftime "%Y-%m" (clock σ), strftime "%d_%m_%Y" (clock σ)), σ).
Proof.
  intros H. unfold paranaDateFragments, datetime_now, bind, gets, ret.
  cbn [truthy]. by rewrite cutoff_hour, H.
Qed.

Lemma paranaDateFragments_yesterday σ y :
  (15 <=? hour (clock σ))%nat = false →
  minus_one_day (clock σ) = Some y →
  paranaDateFragments "" σ
  = (Ok (strftime "%Y-%m" (clock σ), strftime "%d_%m_%Y" y), σ).
Proof.
  intros H Hy. unfold paranaDateFragments, datetime_now, bind, gets, ret.
  cbn [truthy]. by rewrite cutoff_hour, H, Hy.
Qed.

Lemma minus_one_day_some (t : datetime) :
  1 < day t ∨ 1 < month t ∨ 1 < year t → is_Some (minus_one_day t).
Proof.
  intros H. unfold minus_one_day.
  destruct (Nat.ltb_spec 1 (day t)); [by eexists|].
  destruct (Nat.ltb_spec 1 (month t)); [by eexists|].
  destruct (Nat.ltb_spec 1 (year t)); [by eexists|]. lia.
Qed.

(** Once the fragments are known the call rewrites the stored URL and hands
    it to the download step. *)
Lemma downloadParanaDataset_run name tDate dir wd ow σ ym td :
  paranaDateFragments tDate σ = (Ok (ym, td), σ) →
  downloadParanaDataset name tDate dir wd ow σ
  = let u := replace "#VAR2#" td (replace "#VAR1#" ym (cls_urlParanaDataset σ)) in
    downloadDataset u (checked_dir σ dir)
      (if wd then name +:+ "_" +:+ td +:+ ".csv" else name +:+ ".csv") ow
      (set_urlParanaDataset u σ).
Proof.
  intros H. unfold downloadParanaDataset, checked_dir, bind at 1.
  destruct (truthy dir); unfold getDatasetsDir, gets, ret; cbn;
    unfold bind at 1; rewrite H; reflexivity.
Qed.

Lemma downloadParanaDataset_raise name tDate dir wd ow σ e :
  paranaDateFragments tDate σ = (Raise e, σ) →
  downloadParanaDataset name tDate dir wd ow σ = (Raise e, σ).
Proof.
  intros H. unfold downloadParanaDataset, bind at 1.
  destruct (truthy dir); unfold getDatasetsDir, gets, ret; cbn;
    unfold bind at 1; rewrite H; reflexivity.
Qed.

Lemma downloadDataset_keeps_url u d n ow σ :
  cls_urlParanaDataset (downloadDataset u d n ow σ).2 = cls_urlParanaDataset σ.
Proof.
  unfold_methods. cbn.
  repeat (case_match; cbn in *; simplify_eq; try done).
Qed.

(** Filling the pristine template. *)
Lemma replace_pristine ym td :
  char_free "#" ym = true →
  replace "#VAR2#" td (replace "#VAR1#" ym urlParanaDataset0) = paranaUrl ym td.
Proof.
  intros Hym.
  set (p1 := "https://www.saude.pr.gov.br/sites/default/arquivos_restritos/files/documento/").
  set (p2 := "/informe_epidemiologico_").
  set (p3 := "_geral.csv").
  change urlParanaDataset0 with (p1 +:+ "#VAR1#" +:+ p2 +:+ "#VAR2#" +:+ p3).
  unfold replace.
  rewrite replace_go_first by reflexivity.
  rewrite (replace_go_absent _ _ (p2 +:+ "#VAR2#" +:+ p3)) by reflexivity.
  rewrite <- (app_assoc p1 ym), <- (app_assoc (p1 +:+ ym) p2).
  rewrite replace_go_first.
  - rewrite (replace_go_absent _ _ p3) by reflexivity.
    unfold paranaUrl. by rewrite !app_assoc.
  - rewrite !char_free_app, Hym. reflexivity.
Qed.

Lemma paranaUrl_placeholder_free ym td :
  char_free "#" ym = true → char_free "#" td = true →
  placeholder_free (paranaUrl ym td).
Proof.
  intros Hym Htd.
  assert (H : char_free "#" (paranaUrl ym td) = true).
  { unfold paranaUrl. rewrite !char_free_app, Hym, Htd. reflexivity. }
  split; by apply char_free_str_in.
Qed.

Lemma strftime_year_month_eq t :
  strftime "%Y-%m" t = dec (year t) +:+ "-" +:+ pad2 (month t).
Proof. cbn. by rewrite app_empty_r. Qed.

Lemma strftime_day_month_year_eq t :
  strftime "%d_%m_%Y" t = pad2 (day t) +:+ "_" +:+ pad2 (month t) +:+ "_" +:+ dec (year t).
Proof. cbn. by rewrite app_empty_r. Qed.

Lemma strftime_char_free t :
  char_free "#" (strftime "%Y-%m" t) = true
  ∧ char_free "#" (strftime "%d_%m_%Y" t) = true.
Proof.
  assert (Hc : nat_of_ascii "#" < 48 ∨ 57 < nat_of_ascii "#") by (left; vm_compute; lia).
  rewrite strftime_year_month_eq, strftime_day_month_year_eq.
  rewrite !char_free_app, !char_free_dec, !char_free_pad2 by done.
  done.
Qed.

(** Fragments of a date string without '#' have no '#'. *)
Lemma paranaDateFragments_char_free tDate σ ym td σ' :
  char_free "#" tDate = true →
  paranaDateFragments tDate σ = (Ok (ym, td), σ') →
  char_free "#" ym = true ∧ char_free "#" td = true.
Proof.
  intros Hfree. unfold paranaDateFragments.
  destruct (truthy tDate).
  - pose proof (split_char_free "#" "/" tDate Hfree) as Hall.
    rewrite Forall_lookup in Hall.
    unfold index, bind, ret, raise.
    destruct (split "/" tDate !! 2) as [d2|] eqn:H2; [|done].
    destruct (split "/" tDate !! 1) as [d1|] eqn:H1; [|done].
    destruct (split "/" tDate !! 0) as [d0|] eqn:H0; [|done].
    intros [= <- <- _].
    rewrite !char_free_app, (Hall _ _ H0), (Hall _ _ H1), (Hall _ _ H2). done.
  - unfold datetime_now, bind, gets, ret, raise.
    destruct (strftime_char_free (clock σ)) as [Hym Htd].
    destruct (ge _ _).
    + by intros [= <- <- _].
    + destruct (minus_one_day (clock σ)) as [y|]; [|done].
      intros [= <- <- _]. split; [done|]. apply strftime_char_free.
Qed.

End Parana.

(** What the regional fetch does in state [σ2] with respect to URL [u]: it
    either stops in date resolution, leaving the state alone, or runs the
    download step on [u]. *)
Definition resolves_url (run : M string) (u : string) (σ2 : State) : Prop :=
  (∃ e, run σ2 = (Raise e, σ2))
  ∨ (∃ d fname ow, run σ2 = downloadDataset u d fname ow σ2).

(** The stored URL [u] is frozen: it holds no placeholder, and every later
    call of the regional fetch, whatever its arguments and whatever else has
    changed, keeps it and resolves it. *)
Definition url_frozen (u : string) : Prop :=
  placeholder_free u
  ∧ ∀ σ2 name tDate dir wd ow,
      cls_urlParanaDataset σ2 = u →
      cls_urlParanaDataset (downloadParanaDataset name tDate dir wd ow σ2).2 = u
      ∧ resolves_url (downloadParanaDataset name tDate dir wd ow) u σ2.

Lemma placeholder_free_frozen u : placeholder_free u → url_frozen u.
Proof.
  intros [H1 H2]. split; [done|].
  intros σ2 name tDate dir wd ow Hu.
  pose proof (paranaDateFragments_state tDate σ2) as Hst.
  destruct (paranaDateFragments tDate σ2) as [[[ym td]|e] σ'] eqn:Hfr;
    cbn in Hst; subst σ'.
  - unfold resolves_url.
    rewrite (downloadParanaDataset_run _ _ _ _ _ _ _ _ Hfr). cbn zeta.
    rewrite Hu, (replace_absent "#VAR1#") by done.
    rewrite (replace_absent "#VAR2#") by done.
    rewrite <- Hu, set_urlParanaDataset_same, downloadDataset_keeps_url.
    split; [done|]. right. by do 3 eexists.
  - unfold resolves_url. rewrite (downloadParanaDataset_raise _ _ _ _ _ _ _ Hfr).
    split; [done|]. left. by eexists.
Qed.

(** C3: without an explicit date the target date comes from the clock and
    the 15:00 hour.  The test [currentTime >= paranaDatasetUpdateHour] is the
    test [15 <= hour]; from 15:00:00 on the day fragment is today's, and
    before it (as long as there is a day before) it is that of the day
    before. *)
Theorem parana_target_date_by_cutoff (σ : State) :
  let now := clock σ in
  ge (replace_time now (hour now) (minute now) (second now) (microsecond now))
     (replace_time now 15 0 0 0) = (15 <=? hour now)%nat
  ∧ (15 ≤ hour now →
     paranaDateFragments "" σ
     = (Ok (strftime "%Y-%m" now, strftime "%d_%m_%Y" now), σ))
  ∧ (hour now < 15 →
     1 < day now ∨ 1 < month now ∨ 1 < year now →
     ∃ yesterday,
       minus_one_day now = Some yesterday
       ∧ paranaDateFragments "" σ
         = (Ok (strftime "%Y-%m" now, strftime "%d_%m_%Y" yesterday), σ)).
Proof.
  cbn zeta. split; [apply cutoff_hour|]. split.
  - intros H. apply paranaDateFragments_today. by apply Nat.leb_le.
  - intros H Hmin. destruct (minus_one_day_some _ Hmin) as [y Hy].
    exists y. split; [done|].
    apply paranaDateFragments_yesterday; [|done]. apply Nat.leb_gt. lia.
Qed.

(** At 15:00:00 sharp the fragment is today's, one second earlier it is
    yesterday's. *)
Lemma parana_target_date_by_cutoff_witness :
  paranaDateFragments "" (set_clock (mkDatetime 2021 3 5 15 0 0 0) empty_world)
  = (Ok ("2021-03", "05_03_2021"), set_clock (mkDatetime 2021 3 5 15 0 0 0) empty_world)
  ∧ ∃ yesterday,
      minus_one_day (mkDatetime 2021 3 5 14 59 59 0) = Some yesterday
      ∧ paranaDateFragments "" (set_clock (mkDatetime 2021 3 5 14 59 59 0) empty_world)
        = (Ok ("2021-03", strftime "%d_%m_%Y" yesterday),
           set_clock (mkDatetime 2021 3 5 14 59 59 0) empty_world).
Proof.
  split.
  - apply (proj1 (proj2 (parana_target_date_by_cutoff
             (set_clock (mkDatetime 2021 3 5 15 0 0 0) empty_world)))).
    cbn. lia.
  - apply (proj2 (proj2 (parana_target_date_by_cutoff
             (set_clock (mkDatetime 2021 3 5 14 59 59 0) empty_world)))).
    + cbn. lia.
    + cbn. lia.
Defined.

Example one_second_before_cutoff :
  (paranaDateFragments "" (set_clock (mkDatetime 2021 3 5 14 59 59 999) empty_world)).1
  = Ok ("2021-03", "04_03_2021").
Proof. reflexivity. Qed.

(** The first regional fetch of a class: while the Parana template is still
    the original one, the explicit date "05/03/2021" gives the fragments
    "2021-03" and "05_03_2021", and the URL handed to the download step (and
    stored) is the template with these two in place. *)
Theorem parana_explicit_date_url name dir wd ow σ :
  cls_urlParanaDataset σ = urlParanaDataset0 →
  let url := "https://www.saude.pr.gov.br/sites/default/arquivos_restritos/files/documento/2021-03/informe_epidemiologico_05_03_2021_geral.csv" in
  paranaDateFragments "05/03/2021" σ = (Ok ("2021-03", "05_03_2021"), σ)
  ∧ downloadParanaDataset name "05/03/2021" dir wd ow σ
    = downloadDataset url (checked_dir σ dir)
        (if wd then name +:+ "_" +:+ "05_03_2021" +:+ ".csv" else name +:+ ".csv") ow
        (set_urlParanaDataset url σ)
  ∧ str_in "2021-03" url = true
  ∧ str_in "05_03_2021" url = true.
Proof.
  intros Hu url.
  assert (Hfr : paranaDateFragments "05/03/2021" σ = (Ok ("2021-03", "05_03_2021"), σ))
    by reflexivity.
  split; [done|]. split; [|by split].
  rewrite (downloadParanaDataset_run _ _ _ _ _ _ _ _ Hfr), Hu. reflexivity.
Qed.

Lemma parana_explicit_date_url_witness :
  fetched (downloadParanaDataset "daily_newsletter_covid_parana" "05/03/2021" ""
             false false empty_world).2
  = [("https://www.saude.pr.gov.br/sites/default/arquivos_restritos/files/documento/2021-03/informe_epidemiologico_05_03_2021_geral.csv",
      "./datasets-covid/daily_newsletter_covid_parana.csv")].
Proof.
  destruct (parana_explicit_date_url "daily_newsletter_covid_parana" "" false false
              empty_world eq_refl) as (_ & -> & _).
  reflexivity.
Defined.

(** C4 at the failing input: the regional fetch is called for "06/04/2022"
    on a freshly loaded class, in any world, and then for "05/03/2021".  The
    second call still resolves the fragments "2021-03" and "05_03_2021", but
    the template was overwritten by the first call and has no placeholder
    left, so the URL it hands to the download step is the one of the first
    call, which contains neither fragment. *)
Theorem parana_explicit_date_after_earlier_fetch
    (ds : gset string) (fs : gmap string string) (now : datetime)
    (net : string → option string)
    (name1 dir1 : string) (wd1 ow1 : bool)
    (name dir : string) (wd ow : bool) :
  let url1 := "https://www.saude.pr.gov.br/sites/default/arquivos_restritos/files/documento/2022-04/informe_epidemiologico_06_04_2022_geral.csv" in
  let σ1 := (downloadParanaDataset name1 "06/04/2022" dir1 wd1 ow1
               (fresh ds fs now net)).2 in
  cls_urlParanaDataset σ1 = url1
  ∧ paranaDateFragments "05/03/2021" σ1 = (Ok ("2021-03", "05_03_2021"), σ1)
  ∧ downloadParanaDataset name "05/03/2021" dir wd ow σ1
    = downloadDataset url1 (checked_dir σ1 dir)
        (if wd then name +:+ "_" +:+ "05_03_2021" +:+ ".csv" else name +:+ ".csv") ow σ1
  ∧ str_in "2021-03" url1 = false
  ∧ str_in "05_03_2021" url1 = false.
Proof.
  intros url1 σ1.
  assert (Hu1 : cls_urlParanaDataset σ1 = url1).
  { unfold σ1.
    assert (Hfr : paranaDateFragments "06/04/2022" (fresh ds fs now net)
                = (Ok ("2022-04", "06_04_2022"), fresh ds fs now net)) by reflexivity.
    rewrite (downloadParanaDataset_run _ _ _ _ _ _ _ _ Hfr). cbn zeta.
    rewrite downloadDataset_keeps_url.
    cbn [set_urlParanaDataset cls_urlParanaDataset fresh].
    rewrite replace_pristine by reflexivity. vm_compute. reflexivity. }
  assert (Hfr : paranaDateFragments "05/03/2021" σ1 = (Ok ("2021-03", "05_03_2021"), σ1))
    by reflexivity.
  split; [exact Hu1|]. split; [exact Hfr|]. split.
  - rewrite (downloadParanaDataset_run _ _ _ _ _ _ _ _ Hfr). cbn zeta.
    rewrite Hu1.
    rewrite (replace_absent "#VAR1#" "2021-03" url1) by (vm_compute; reflexivity).
    rewrite (replace_absent "#VAR2#" "05_03_2021" url1) by (vm_compute; reflexivity).
    by rewrite <- Hu1, set_urlParanaDataset_same.
  - split; vm_compute; reflexivity.
Qed.

Example parana_second_explicit_date_network_calls :
  let σ1 := (downloadParanaDataset "p" "06/04/2022" "" true false empty_world).2 in
  fetched (downloadParanaDataset "p" "05/03/2021" "" true false σ1).2
  = [(paranaUrl "2022-04" "06_04_2022", "./datasets-covid/p_06_04_2022.csv");
     (paranaUrl "2022-04" "06_04_2022", "./datasets-covid/p_05_03_2021.csv")].
Proof. vm_compute. reflexivity. Qed.

(** C2 at the failing input: on the first of March 2021 at 10:00, with no
    explicit date, the day fragment is that of 28 February while the
    year-month fragment is still March, although the month of the resolved
    target date is February. *)
Theorem parana_year_month_taken_from_today (σ : State) :
  let now := mkDatetime 2021 3 1 10 0 0 0 in
  paranaDateFragments "" (set_clock now σ)
  = (Ok ("2021-03", "28_02_2021"), set_clock now σ)
  ∧ minus_one_day now = Some (mkDatetime 2021 2 28 10 0 0 0)
  ∧ strftime "%Y-%m" (mkDatetime 2021 2 28 10 0 0 0) = "2021-02"
  ∧ paranaDateFragments "28/02/2021" σ = (Ok ("2021-02", "28_02_2021"), σ).
Proof. repeat split. Qed.

(** C9, as amended: on a class whose Parana template is still the original
    one, a call whose date string has no '#' (every day/month/year date, and
    every call without a date) and whose date resolution succeeds stores the
    template filled with that call's fragments; the stored URL then has no
    placeholder left, and every later call keeps it and resolves it. *)
Theorem parana_url_frozen_after_first_call name tDate dir wd ow σ ym td :
  cls_urlParanaDataset σ = urlParanaDataset0 →
  char_free "#" tDate = true →
  paranaDateFragments tDate σ = (Ok (ym, td), σ) →
  cls_urlParanaDataset (downloadParanaDataset name tDate dir wd ow σ).2 = paranaUrl ym td
  ∧ url_frozen (paranaUrl ym td).
Proof.
  intros Hu Hfree Hfr.
  destruct (paranaDateFragments_char_free _ _ _ _ _ Hfree Hfr) as [Hym Htd].
  split.
  - rewrite (downloadParanaDataset_run _ _ _ _ _ _ _ _ Hfr). cbn zeta.
    rewrite downloadDataset_keeps_url.
    cbn [set_urlParanaDataset cls_urlParanaDataset].
    rewrite Hu. apply replace_pristine, Hym.
  - apply placeholder_free_frozen, paranaUrl_placeholder_free; assumption.
Qed.

Lemma parana_url_frozen_after_first_call_witness :
  cls_urlParanaDataset
    (downloadParanaDataset "p" "05/03/2021" "" false false empty_world).2
  = paranaUrl "2021-03" "05_03_2021"
  ∧ url_frozen (paranaUrl "2021-03" "05_03_2021").
Proof.
  apply parana_url_frozen_after_first_call; reflexivity.
Defined.

(** C9, as stated, fails for a date string that carries a placeholder: the
    stored URL still holds "#VAR1#" after the call, and the next call
    rewrites it again. *)
Lemma parana_url_not_frozen_for_placeholder_date :
  let σ1 := (downloadParanaDataset "p" "01/02/#VAR1#" "" false false empty_world).2 in
  let σ2 := (downloadParanaDataset "p" "05/03/2021" "" false false σ1).2 in
  ¬ url_frozen (cls_urlParanaDataset σ1)
  ∧ str_in "#VAR1#" (cls_urlParanaDataset σ1) = true
  ∧ cls_urlParanaDataset σ2 ≠ cls_urlParanaDataset σ1.
Proof.
  cbn zeta. split; [|split].
  - intros [[H _] _]. vm_compute in H. discriminate.
  - vm_compute. reflexivity.
  - vm_compute. discriminate.
Qed.

(** ** The global (Hopkins) series and the author's reference tables *)

(** The Hopkins template after [getUrlHopkinsGlobalConfirmedCases]. *)
Definition hopkinsConfirmedUrl : string :=
  "https://raw.githubusercontent.com/CSSEGISandData/COVID-19/master/csse_covid_19_data/csse_covid_19_time_series/time_series_covid19_confirmed_global.csv".

Definition hopkinsDeathsUrl : string :=
  "https://raw.githubusercontent.com/CSSEGISandData/COVID-19/master/csse_covid_19_data/csse_covid_19_time_series/time_series_covid19_deaths_global.csv".

(** The author's template with the one identifier both table fetches use. *)
Definition ownCitiesUrl : string :=
  "https://raw.githubusercontent.com/FlavioLucasFer/datascience/master/datasets/parana_cities_with_ibge_code.csv".

(** The file-name suffix of a recognised kind. *)
Definition hopkins_suffix (kind : string) : option string :=
  if String.eqb (lower kind) "confirmed" then Some "confirmed_cases"
  else if String.eqb (lower kind) "deaths" then Some "deaths"
  else if String.eqb (lower kind) "recovered" then Some "recovered"
  else None.

Section Hopkins.

(** Line 356: the second [replace] finds nothing left to replace. *)
Lemma hopkins_url_fixed kind :
  replace "#VAR1#" kind (replace "#VAR1#" "confirmed" urlHopkinsDatasets)
  = hopkinsConfirmedUrl.
Proof.
  assert (E : replace "#VAR1#" "confirmed" urlHopkinsDatasets = hopkinsConfirmedUrl)
    by (vm_compute; reflexivity).
  rewrite E. apply replace_absent. vm_compute. reflexivity.
Qed.

Lemma downloadHopkinsDataset_run name kind dir wd ow σ :
  downloadHopkinsDataset name kind dir wd ow σ
  = let base := match hopkins_suffix kind with
                | Some suffix => name +:+ suffix
                | None => name
                end in
    downloadDataset hopkinsConfirmedUrl (checked_dir σ dir)
      (if wd then base +:+ "_" +:+ strftime "%d_%m_%Y" (clock σ) +:+ ".csv"
       else base +:+ ".csv") ow
      (match hopkins_suffix kind with
       | Some _ => σ
       | None => set_stdout (stdout σ ++ [kind_warning]) σ
       end).
Proof.
  unfold downloadHopkinsDataset, hopkins_suffix, checked_dir,
    getUrlHopkinsGlobalConfirmedCases, __getUrlHopkinsDatasets.
  destruct (truthy dir), (String.eqb (lower kind) "confirmed"),
    (String.eqb (lower kind) "deaths"), (String.eqb (lower kind) "recovered"), wd;
    unfold bind, ret, gets, getDatasetsDir, datetime_now, print, modify;
    cbn [set_stdout clock cls_datasetsDir];
    rewrite hopkins_url_fixed; reflexivity.
Qed.

(** The download step only adds lines to what was printed. *)
Lemma downloadDataset_keeps_stdout url d n ow σ line :
  line ∈ stdout σ → line ∈ stdout (downloadDataset url d n ow σ).2.
Proof.
  intros H. unfold_methods. cbn.
  repeat (case_match; cbn in *; simplify_eq; try done);
    repeat (progress (cbn [stdout snd]; rewrite ?elem_of_app)); tauto.
Qed.

Lemma own_url_fixed :
  replace "#VAR1#" "parana_cities_with_ibge_code" urlOwnDatasets = ownCitiesUrl.
Proof. vm_compute. reflexivity. Qed.

End Hopkins.

(** C1 at the failing input: for the kind "deaths" the global-series fetch
    hands the download step the URL of the confirmed-cases series.  That URL
    does not contain "deaths" (it contains "confirmed"), it has no "#VAR1#"
    left, and it differs from what [getUrlHopkinsGlobalDeaths] returns. *)
Theorem hopkins_deaths_fetches_confirmed_series name dir wd ow σ :
  downloadHopkinsDataset name "deaths" dir wd ow σ
  = downloadDataset hopkinsConfirmedUrl (checked_dir σ dir)
      (if wd then (name +:+ "deaths") +:+ "_" +:+ strftime "%d_%m_%Y" (clock σ) +:+ ".csv"
       else (name +:+ "deaths") +:+ ".csv") ow σ
  ∧ str_in "deaths" hopkinsConfirmedUrl = false
  ∧ str_in "confirmed" hopkinsConfirmedUrl = true
  ∧ str_in "#VAR1#" hopkinsConfirmedUrl = false
  ∧ getUrlHopkinsGlobalDeaths σ = (Ok hopkinsDeathsUrl, σ)
  ∧ hopkinsDeathsUrl ≠ hopkinsConfirmedUrl.
Proof.
  split; [apply downloadHopkinsDataset_run|].
  do 4 (split; [vm_compute; reflexivity|]). discriminate.
Qed.

Example hopkins_deaths_network_call :
  fetched (downloadHopkinsDataset "hopkins_global_" "deaths" "" false false empty_world).2
  = [(hopkinsConfirmedUrl, "./datasets-covid/hopkins_global_deaths.csv")].
Proof. vm_compute. reflexivity. Qed.

(** C7, as amended: for every kind whose lower-cased value is none of
    "confirmed", "deaths", "recovered", the global-series fetch prints the
    warning and then runs the download step all the same: on the
    confirmed-cases URL, in which the kind is not substituted, and with a file
    name that got no kind suffix.  The warning is among the lines printed by
    the end of the call. *)
Theorem hopkins_unknown_kind_warns_and_proceeds name kind dir wd ow σ :
  lower kind ≠ "confirmed" →
  lower kind ≠ "deaths" →
  lower kind ≠ "recovered" →
  downloadHopkinsDataset name kind dir wd ow σ
  = downloadDataset hopkinsConfirmedUrl (checked_dir σ dir)
      (if wd then name +:+ "_" +:+ strftime "%d_%m_%Y" (clock σ) +:+ ".csv"
       else name +:+ ".csv") ow
      (set_stdout (stdout σ ++ [kind_warning]) σ)
  ∧ kind_warning ∈ stdout (downloadHopkinsDataset name kind dir wd ow σ).2.
Proof.
  intros Hc Hd Hr.
  assert (E : downloadHopkinsDataset name kind dir wd ow σ
            = downloadDataset hopkinsConfirmedUrl (checked_dir σ dir)
                (if wd then name +:+ "_" +:+ strftime "%d_%m_%Y" (clock σ) +:+ ".csv"
                 else name +:+ ".csv") ow
                (set_stdout (stdout σ ++ [kind_warning]) σ)).
  { rewrite downloadHopkinsDataset_run. unfold hopkins_suffix.
    apply String.eqb_neq in Hc, Hd, Hr. by rewrite Hc, Hd, Hr. }
  split; [exact E|].
  rewrite E. apply downloadDataset_keeps_stdout.
  cbn [set_stdout stdout]. apply elem_of_app. right. apply list_elem_of_here.
Qed.

Lemma hopkins_unknown_kind_warns_and_proceeds_witness :
  downloadHopkinsDataset "hopkins_global_" "cases" "" false false empty_world
  = (Ok "./datasets-covid/hopkins_global_.csv",
     (downloadDataset hopkinsConfirmedUrl "./datasets-covid" "hopkins_global_.csv" false
        (set_stdout [kind_warning] empty_world)).2).
Proof.
  rewrite (proj1 (hopkins_unknown_kind_warns_and_proceeds
             "hopkins_global_" "cases" "" false false empty_world
             ltac:(discriminate) ltac:(discriminate) ltac:(discriminate))).
  vm_compute. reflexivity.
Defined.

(** C7, as stated, fails for a kind that differs from the three names only by
    case: "DEATHS" is none of the three strings, yet no warning is printed. *)
Lemma hopkins_uppercase_kind_no_warning :
  "DEATHS" ≠ "confirmed" ∧ "DEATHS" ≠ "deaths" ∧ "DEATHS" ≠ "recovered"
  ∧ stdout (downloadHopkinsDataset "hopkins_global_" "DEATHS" "" false false
              empty_world).2
    = ["Url: " +:+ hopkinsConfirmedUrl;
       "Downloading csv file...";
       "Download success!";
       "Dataset path: ./datasets-covid/hopkins_global_deaths.csv"]
  ∧ kind_warning ∉ stdout (downloadHopkinsDataset "hopkins_global_" "DEATHS" "" false
                             false empty_world).2.
Proof.
  assert (E : stdout (downloadHopkinsDataset "hopkins_global_" "DEATHS" "" false false
                        empty_world).2
            = ["Url: " +:+ hopkinsConfirmedUrl;
               "Downloading csv file...";
               "Download success!";
               "Dataset path: ./datasets-covid/hopkins_global_deaths.csv"])
    by (vm_compute; reflexivity).
  split; [discriminate|]. split; [discriminate|]. split; [discriminate|].
  split; [exact E|].
  rewrite E. intros H.
  repeat (apply elem_of_cons in H as [H|H]; [discriminate H|]).
  by apply elem_of_nil in H.
Qed.

(** C10: the two reference-table fetches run the download step on one and
    the same URL, the author's template with "parana_cities_with_ibge_code"
    in place; with equal arguments they are the same computation, and their
    default file names differ. *)
Theorem own_tables_resolve_same_url name dir ow σ :
  downloadParanavaiRegionCitiesWithIBGECodeDataset name dir ow σ
  = downloadDataset ownCitiesUrl (checked_dir σ dir) name ow σ
  ∧ downloadParanaCitiesWithIBGECodeDataset name dir ow σ
    = downloadDataset ownCitiesUrl (checked_dir σ dir) name ow σ
  ∧ replace "#VAR1#" "parana_cities_with_ibge_code" urlOwnDatasets = ownCitiesUrl
  ∧ default_paranavaiRegion_csvFileName ≠ default_paranaCities_csvFileName.
Proof.
  assert (H : ∀ run, run = downloadParanaCitiesWithIBGECodeDataset →
    run name dir ow σ = downloadDataset ownCitiesUrl (checked_dir σ dir) name ow σ).
  { intros run ->.
    unfold downloadParanaCitiesWithIBGECodeDataset, checked_dir, __getUrlOwnDatasets.
    destruct (truthy dir); unfold bind, ret, gets, getDatasetsDir;
      rewrite own_url_fixed; reflexivity. }
  split; [by apply H|]. split; [by apply H|].
  split; [apply own_url_fixed | discriminate].
Qed.

Example own_tables_default_calls :
  fetched (downloadParanavaiRegionCitiesWithIBGECodeDataset
             default_paranavaiRegion_csvFileName "" false empty_world).2
  = [(ownCitiesUrl, "./datasets-covid/paranavai_region_cities_with_ibge_code.csv")]
  ∧ fetched (downloadParanaCitiesWithIBGECodeDataset
               default_paranaCities_csvFileName "" false empty_world).2
    = [(ownCitiesUrl, "./datasets-covid/parana_cities_with_ibge_code.csv")].
Proof. split; vm_compute; reflexivity. Qed.

(** ** Further properties of the download step *)

(** The directory [checkDatasetDir] looks at is there. *)
Definition dir_exists (σ : State) (dir : string) : bool :=
  truthy (checked_dir σ dir) && bool_decide (checked_dir σ dir ∈ fs_dirs σ).

Ltac split_bools :=
  repeat match goal with
  | H : _ && _ = true |- _ => apply andb_true_iff in H as [? ?]
  | H : _ || _ = false |- _ => apply orb_false_iff in H as [? ?]
  | H : negb _ = true |- _ => apply negb_true_iff in H
  | H : negb _ = false |- _ => apply negb_false_iff in H
  | H : bool_decide _ = true |- _ => apply bool_decide_eq_true in H
  | H : bool_decide _ = false |- _ => apply bool_decide_eq_false in H
  end.

Section DownloadMore.

Lemma lookup_other_path (fs : gmap string string) (p q body : string) :
  q ≠ p → <[p := body]> fs !! q = fs !! q.
Proof. intros. by apply lookup_insert_ne. Qed.

(** Whatever the outcome, the download step leaves the class attributes and
    the environment alone, only adds [dirToSave] to the directories, and only
    touches the file at the target path. *)
Lemma downloadDataset_frame_all url dir name ow σ :
  let σ' := (downloadDataset url dir name ow σ).2 in
  cls_urlParanaDataset σ' = cls_urlParanaDataset σ
  ∧ cls_datasetsDir σ' = cls_datasetsDir σ
  ∧ clock σ' = clock σ
  ∧ remote σ' = remote σ
  ∧ may_create σ' = may_create σ
  ∧ may_write σ' = may_write σ
  ∧ (fs_dirs σ' = fs_dirs σ ∨ fs_dirs σ' = {[dir]} ∪ fs_dirs σ)
  ∧ (fs_files σ' = fs_files σ
     ∨ ∃ body, remote σ url = Some body
               ∧ fs_files σ' = <[dir +:+ "/" +:+ name := body]> (fs_files σ)).
Proof.
  unfold_methods. cbn.
  repeat (case_match; cbn in *; simplify_eq; try done);
    repeat split; eauto.
Qed.

End DownloadMore.

Section DownloadRuns.

Lemma dir_exists_check σ dir : checkDatasetDir dir σ = (Ok (dir_exists σ dir), σ).
Proof. apply checkDatasetDir_run. Qed.

Lemma dir_usable_cases σ dir :
  dir_usable σ dir →
  dir_exists σ dir = true
  ∨ (dir_exists σ dir = false ∧ truthy dir = true
     ∧ os_mkdir dir σ = (Ok tt, set_dirs ({[dir]} ∪ fs_dirs σ) σ)).
Proof.
  unfold dir_usable. rewrite dir_exists_check. cbn.
  destruct (dir_exists σ dir); [by left|]. intros [[=]|Hmk]. right.
  revert Hmk. unfold os_mkdir.
  destruct (truthy dir); [|done]. cbn.
  destruct (bool_decide (dir ∈ fs_dirs σ) || bool_decide (dir ∈ dom (fs_files σ)));
    [done|].
  by destruct (may_create σ dir).
Qed.

(** The test of line 251. *)
Definition must_fetch (σ : State) (name dir : string) (ow : bool) : bool :=
  negb (truthy (checked_dir σ dir +:+ "/" +:+ name)
        && bool_decide (checked_dir σ dir +:+ "/" +:+ name ∈ dom (fs_files σ)))
  || ow.

Lemma must_fetch_true σ name dir ow :
  ¬ file_present σ name dir ∨ ow = true → must_fetch σ name dir ow = true.
Proof.
  unfold file_present, must_fetch. rewrite checkDataset_run. cbn.
  intros [Hfile| ->]; [|by rewrite orb_true_r].
  revert Hfile. generalize (truthy (checked_dir σ dir +:+ "/" +:+ name)
    && bool_decide (checked_dir σ dir +:+ "/" +:+ name ∈ dom (fs_files σ))).
  intros [] ?; [congruence|done].
Qed.

(** Runs the directory step of [downloadDataset] in the goal. *)
Ltac through_dir_step Hdir :=
  let Hex := fresh "Hex" in
  let Htd := fresh "Htd" in
  let Hmk := fresh "Hmk" in
  apply dir_usable_cases in Hdir as [Hex|(Hex & Htd & Hmk)];
  unfold downloadDataset, bind; rewrite dir_exists_check, Hex; cbn [negb];
  [|rewrite Hmk]; cbn; rewrite checkDataset_run;
  unfold must_fetch, checked_dir in *; cbn.

(** A fetch that goes through, with the state it leaves. *)
Lemma downloadDataset_fetch_state url dir name ow σ body :
  dir_usable σ dir →
  must_fetch σ name dir ow = true →
  remote σ url = Some body →
  (dir +:+ "/" +:+ name ∉ fs_dirs σ) →
  may_write σ (dir +:+ "/" +:+ name) = true →
  ∃ σ', downloadDataset url dir name ow σ = (Ok (dir +:+ "/" +:+ name), σ')
        ∧ fetched σ' = fetched σ ++ [(url, dir +:+ "/" +:+ name)]
        ∧ fs_files σ' = <[dir +:+ "/" +:+ name := body]> (fs_files σ)
        ∧ fs_dirs σ' = (if dir_exists σ dir then fs_dirs σ else {[dir]} ∪ fs_dirs σ)
        ∧ last (stdout σ') = Some ("Dataset path: " +:+ dir +:+ "/" +:+ name).
Proof.
  intros Hdir Hgo Hbody Hnd Hw.
  pose proof (path_ne_dir dir name) as Hne.
  through_dir_step Hdir; rewrite Hgo; unfold_methods; cbn;
    rewrite Hbody, Hw, path_truthy, bool_decide_eq_false_2; cbn;
    try done.
  - eexists. split; [reflexivity|]. cbn. repeat split. by rewrite last_snoc.
  - eexists. split; [reflexivity|]. cbn. repeat split. by rewrite last_snoc.
  - rewrite not_elem_of_union, not_elem_of_singleton. done.
Qed.

(** A fetch the network refuses. *)
Lemma downloadDataset_fetch_refused url dir name ow σ :
  dir_usable σ dir →
  must_fetch σ name dir ow = true →
  remote σ url = None →
  ∃ σ', downloadDataset url dir name ow σ = (Raise URLError, σ')
        ∧ fetched σ' = fetched σ ++ [(url, dir +:+ "/" +:+ name)]
        ∧ fs_dirs σ' = (if dir_exists σ dir then fs_dirs σ else {[dir]} ∪ fs_dirs σ)
        ∧ last (stdout σ') = Some "Downloading csv file...".
Proof.
  intros Hdir Hgo Hbody.
  through_dir_step Hdir; rewrite Hgo; unfold_methods; cbn; rewrite Hbody; cbn.
  - eexists. split; [reflexivity|]. cbn. repeat split. by rewrite last_snoc.
  - eexists. split; [reflexivity|]. cbn. repeat split. by rewrite last_snoc.
Qed.

(** No fetch needed. *)
Lemma downloadDataset_skip_state url dir name ow σ :
  dir_usable σ dir →
  must_fetch σ name dir ow = false →
  ∃ σ', downloadDataset url dir name ow σ = (Ok (dir +:+ "/" +:+ name), σ')
        ∧ fetched σ' = fetched σ
        ∧ fs_files σ' = fs_files σ
        ∧ fs_dirs σ' = (if dir_exists σ dir then fs_dirs σ else {[dir]} ∪ fs_dirs σ).
Proof.
  intros Hdir Hgo.
  through_dir_step Hdir; rewrite Hgo; unfold_methods; cbn.
  - eexists. split; [reflexivity|]. cbn. done.
  - eexists. split; [reflexivity|]. cbn. done.
Qed.

(** The directory step fails: nothing else happens. *)
Lemma downloadDataset_no_dir url dir name ow σ e :
  dir_exists σ dir = false →
  (os_mkdir dir σ).1 = Raise e →
  downloadDataset url dir name ow σ = (Raise e, σ).
Proof.
  intros Hex Hmk.
  unfold downloadDataset, bind. rewrite dir_exists_check, Hex. cbn [negb].
  revert Hmk. unfold os_mkdir.
  repeat (case_match; cbn; try done); by intros [= ->].
Qed.

End DownloadRuns.

Section DownloadAfter.

Lemma downloadDataset_run_state url dir name ow σ r σ' :
  downloadDataset url dir name ow σ = (r, σ') →
  cls_datasetsDir σ' = cls_datasetsDir σ
  ∧ remote σ' = remote σ ∧ may_write σ' = may_write σ.
Proof.
  intros H. pose proof (downloadDataset_frame_all url dir name ow σ) as F.
  rewrite H in F. cbn in F. tauto.
Qed.

Lemma dir_exists_after σ σ1 dir :
  dir_usable σ dir →
  cls_datasetsDir σ1 = cls_datasetsDir σ →
  fs_dirs σ1 = (if dir_exists σ dir then fs_dirs σ else {[dir]} ∪ fs_dirs σ) →
  dir_exists σ1 dir = true.
Proof.
  intros [Hex|(Hex & Htd & _)]%dir_usable_cases Hd; rewrite Hex; intros Hdirs.
  - unfold dir_exists, checked_dir in *. by rewrite Hd, Hdirs.
  - unfold dir_exists, checked_dir. rewrite Htd, Hdirs. cbn. rewrite Htd. cbn.
    apply bool_decide_eq_true_2, elem_of_union_l. by apply elem_of_singleton.
Qed.

Lemma dir_usable_exists σ dir : dir_exists σ dir = true → dir_usable σ dir.
Proof. intros H. left. by rewrite dir_exists_check, H. Qed.

End DownloadAfter.

(** X1: with [overwrite] on, two calls in a row make two network calls, both
    return the target path, and the file ends up with the body the URL
    serves. *)
Theorem downloadDataset_overwrite_twice_fetches_twice url dir name σ body :
  dir_usable σ dir →
  remote σ url = Some body →
  (dir +:+ "/" +:+ name ∉ fs_dirs σ) →
  may_write σ (dir +:+ "/" +:+ name) = true →
  ∃ σ1 σ2,
    downloadDataset url dir name true σ = (Ok (dir +:+ "/" +:+ name), σ1)
    ∧ downloadDataset url dir name true σ1 = (Ok (dir +:+ "/" +:+ name), σ2)
    ∧ fetched σ2
      = fetched σ ++ [(url, dir +:+ "/" +:+ name); (url, dir +:+ "/" +:+ name)]
    ∧ fs_files σ2 !! (dir +:+ "/" +:+ name) = Some body.
Proof.
  intros Hdir Hbody Hnd Hw.
  assert (Hgo : ∀ s, must_fetch s name dir true = true)
    by (intros s; unfold must_fetch; apply orb_true_r).
  destruct (downloadDataset_fetch_state url dir name true σ body Hdir (Hgo σ) Hbody Hnd Hw)
    as (σ1 & H1 & Hf1 & _ & Hd1 & _).
  destruct (downloadDataset_run_state _ _ _ _ _ _ _ H1) as (Hc1 & Hr1 & Hw1).
  pose proof (dir_exists_after σ σ1 dir Hdir Hc1 Hd1) as Hex1.
  destruct (downloadDataset_fetch_state url dir name true σ1 body)
    as (σ2 & H2 & Hf2 & Hfiles2 & _); [by apply dir_usable_exists|done|by rewrite Hr1| |by rewrite Hw1|].
  - rewrite Hd1. destruct (dir_exists σ dir); [done|].
    rewrite not_elem_of_union, not_elem_of_singleton. split; [apply path_ne_dir|done].
  - exists σ1, σ2. repeat split; [done..| |].
    + by rewrite Hf2, Hf1, <- (assoc_L (++)).
    + by rewrite Hfiles2, lookup_insert_eq.
Qed.

Lemma downloadDataset_overwrite_twice_fetches_twice_witness :
  ∃ σ1 σ2,
    downloadDataset "u" "d" "f.csv" true empty_world = (Ok "d/f.csv", σ1)
    ∧ downloadDataset "u" "d" "f.csv" true σ1 = (Ok "d/f.csv", σ2)
    ∧ fetched σ2 = [("u", "d/f.csv"); ("u", "d/f.csv")]
    ∧ fs_files σ2 !! "d/f.csv" = Some "csv".
Proof.
  apply (downloadDataset_overwrite_twice_fetches_twice "u" "d" "f.csv" empty_world "csv").
  - right. reflexivity.
  - reflexivity.
  - apply not_elem_of_empty.
  - reflexivity.
Defined.

(** X2: when the target directory is not there and can be made, a fetch that
    goes through adds exactly that one directory, writes exactly the file at
    [dirToSave/csvFileName] with the served body, and records one network
    call. *)
Theorem downloadDataset_creates_directory_and_file url dir name ow σ body :
  (checkDatasetDir dir σ).1 = Ok false →
  (os_mkdir dir σ).1 = Ok tt →
  ¬ file_present σ name dir ∨ ow = true →
  remote σ url = Some body →
  (dir +:+ "/" +:+ name ∉ fs_dirs σ) →
  may_write σ (dir +:+ "/" +:+ name) = true →
  ∃ σ', downloadDataset url dir name ow σ = (Ok (dir +:+ "/" +:+ name), σ')
        ∧ fs_dirs σ' = {[dir]} ∪ fs_dirs σ
        ∧ fs_files σ' = <[dir +:+ "/" +:+ name := body]> (fs_files σ)
        ∧ fetched σ' = fetched σ ++ [(url, dir +:+ "/" +:+ name)].
Proof.
  rewrite dir_exists_check. cbn. intros [= Hex] Hmk Hgo%must_fetch_true Hbody Hnd Hw.
  destruct (downloadDataset_fetch_state url dir name ow σ body)
    as (σ' & H & Hf & Hfiles & Hdirs & _); [by right|done..|].
  rewrite Hex in Hdirs. by exists σ'.
Qed.

Lemma downloadDataset_creates_directory_and_file_witness :
  ∃ σ', downloadDataset "u" "d" "f.csv" false empty_world = (Ok "d/f.csv", σ')
        ∧ fs_dirs σ' = {["d"]} ∪ ∅
        ∧ fs_files σ' = <["d/f.csv" := "csv"]> ∅
        ∧ fetched σ' = [("u", "d/f.csv")].
Proof.
  apply (downloadDataset_creates_directory_and_file "u" "d" "f.csv" false empty_world "csv").
  - reflexivity.
  - reflexivity.
  - left. unfold file_present. vm_compute. discriminate.
  - reflexivity.
  - apply not_elem_of_empty.
  - reflexivity.
Defined.

(** X3: when the file is already where [checkDataset] finds it and
    [overwrite] is off, the call returns the path without any network call
    and without touching any file, whether or not the directory had to be
    made. *)
Theorem downloadDataset_skips_existing_file url dir name σ :
  dir_usable σ dir →
  file_present σ name dir →
  ∃ σ', downloadDataset url dir name false σ = (Ok (dir +:+ "/" +:+ name), σ')
        ∧ fetched σ' = fetched σ
        ∧ fs_files σ' = fs_files σ.
Proof.
  intros Hdir Hp.
  destruct (downloadDataset_skip_state url dir name false σ Hdir)
    as (σ' & H & Hf & Hfiles & _); [|by exists σ'].
  revert Hp. unfold file_present, must_fetch. rewrite checkDataset_run. cbn.
  intros [= ->]. reflexivity.
Qed.

Lemma downloadDataset_skips_existing_file_witness :
  ∃ σ', downloadDataset "u" "d" "f.csv" false
          (fresh {["d"]} {["d/f.csv" := "old"]} noon_5_march serve_all)
        = (Ok "d/f.csv", σ')
        ∧ fetched σ' = []
        ∧ fs_files σ' = {["d/f.csv" := "old"]}.
Proof.
  exact (downloadDataset_skips_existing_file "u" "d" "f.csv"
           (fresh {["d"]} {["d/f.csv" := "old"]} noon_5_march serve_all)
           (or_introl eq_refl) eq_refl).
Defined.

(** X4: when the directory is not there and [os.mkdir] raises, the call
    raises the same error with the state untouched: nothing is printed and
    no network call is made. *)
Theorem downloadDataset_aborts_when_mkdir_fails url dir name ow σ e :
  (checkDatasetDir dir σ).1 = Ok false →
  (os_mkdir dir σ).1 = Raise e →
  downloadDataset url dir name ow σ = (Raise e, σ).
Proof.
  rewrite dir_exists_check. cbn. intros [= Hex] Hmk.
  by apply downloadDataset_no_dir.
Qed.

Lemma downloadDataset_aborts_when_mkdir_fails_witness :
  downloadDataset "u" "a/b" "f.csv" false
    (mkState urlParanaDataset0 datasetsDir0 ∅ ∅ [] [] noon_5_march serve_all
       (λ _, false) (λ _, true))
  = (Raise OSError,
     mkState urlParanaDataset0 datasetsDir0 ∅ ∅ [] [] noon_5_march serve_all
       (λ _, false) (λ _, true)).
Proof.
  apply downloadDataset_aborts_when_mkdir_fails; reflexivity.
Defined.

(** X5: a regular file standing where the directory should be is not a
    directory for [checkDatasetDir], so the call tries [os.mkdir] and raises
    [FileExistsError], leaving everything as it was. *)
Theorem downloadDataset_directory_is_a_file url dir name ow σ :
  dir ≠ "" →
  dir ∉ fs_dirs σ →
  dir ∈ dom (fs_files σ) →
  downloadDataset url dir name ow σ = (Raise FileExistsError, σ).
Proof.
  intros Hne Hnd Hfile.
  assert (Htd : truthy dir = true) by by destruct dir.
  apply downloadDataset_no_dir.
  - unfold dir_exists, checked_dir. rewrite Htd. cbn. rewrite Htd. cbn.
    by rewrite bool_decide_eq_false_2.
  - unfold os_mkdir. rewrite Htd. cbn.
    by rewrite bool_decide_eq_false_2, bool_decide_eq_true_2.
Qed.

Lemma downloadDataset_directory_is_a_file_witness :
  downloadDataset "u" "d" "f.csv" true (fresh ∅ {["d" := "x"]} noon_5_march serve_all)
  = (Raise FileExistsError, fresh ∅ {["d" := "x"]} noon_5_march serve_all).
Proof.
  apply downloadDataset_directory_is_a_file.
  - done.
  - apply not_elem_of_empty.
  - apply elem_of_dom. by eexists.
Defined.

(** X6: with an empty [dirToSave] the directory test falls back to the
    default directory but [os.mkdir] gets the empty path: when the default
    directory is missing the call raises and never creates it. *)
Theorem downloadDataset_empty_dir_never_creates_default url name ow σ :
  cls_datasetsDir σ ∉ fs_dirs σ →
  downloadDataset url "" name ow σ = (Raise OSError, σ).
Proof.
  intros Hnd. apply downloadDataset_no_dir; [|reflexivity].
  unfold dir_exists, checked_dir. cbn.
  by rewrite bool_decide_eq_false_2, andb_false_r.
Qed.

Lemma downloadDataset_empty_dir_never_creates_default_witness :
  downloadDataset "u" "" "f.csv" false empty_world = (Raise OSError, empty_world).
Proof.
  apply downloadDataset_empty_dir_never_creates_default. apply not_elem_of_empty.
Defined.

(** X7: a fetch the network refuses raises [URLError] after exactly one
    recorded network call (no retry); the last line printed is the
    "Downloading" line, and a directory made for the call stays. *)
Theorem downloadDataset_fetch_failure_propagates url dir name ow σ :
  dir_usable σ dir →
  ¬ file_present σ name dir ∨ ow = true →
  remote σ url = None →
  ∃ σ', downloadDataset url dir name ow σ = (Raise URLError, σ')
        ∧ fetched σ' = fetched σ ++ [(url, dir +:+ "/" +:+ name)]
        ∧ last (stdout σ') = Some "Downloading csv file..."
        ∧ fs_dirs σ' = (if dir_exists σ dir then fs_dirs σ else {[dir]} ∪ fs_dirs σ).
Proof.
  intros Hdir Hgo%must_fetch_true Hnone.
  destruct (downloadDataset_fetch_refused url dir name ow σ Hdir Hgo Hnone)
    as (σ' & H & Hf & Hdirs & Hlast).
  by exists σ'.
Qed.

Lemma downloadDataset_fetch_failure_propagates_witness :
  ∃ σ', downloadDataset "u" "d" "f.csv" false (fresh ∅ ∅ noon_5_march (λ _, None))
        = (Raise URLError, σ')
        ∧ fetched σ' = [("u", "d/f.csv")]
        ∧ last (stdout σ') = Some "Downloading csv file..."
        ∧ fs_dirs σ' = {["d"]} ∪ ∅.
Proof.
  refine (downloadDataset_fetch_failure_propagates "u" "d" "f.csv" false
            (fresh ∅ ∅ noon_5_march (λ _, None)) _ _ _).
  - right. reflexivity.
  - left. unfold file_present. vm_compute. discriminate.
  - reflexivity.
Defined.

Section DownloadRoundTrip.

Lemma downloadDataset_ok_leaves_both url dir name ow σ p σ' :
  dir ≠ "" →
  downloadDataset url dir name ow σ = (Ok p, σ') →
  dir ∈ fs_dirs σ' ∧ dir +:+ "/" +:+ name ∈ dom (fs_files σ').
Proof.
  intros Hne. destruct dir as [|a d]; [done|]. clear Hne.
  unfold_methods. cbn.
  repeat (case_match; cbn in *; simplify_eq; try done);
    intros [= <- <-]; cbn; split_bools; split;
    try done; try (apply elem_of_union_l; by apply elem_of_singleton);
    try (apply elem_of_dom; rewrite lookup_insert_eq; by eexists).
Qed.

End DownloadRoundTrip.

(** X8: after a call with a non-empty directory has returned, both existence
    checks answer [True] for that directory and file. *)
Theorem checks_succeed_after_download url dir name ow σ p σ' :
  dir ≠ "" →
  downloadDataset url dir name ow σ = (Ok p, σ') →
  checkDatasetDir dir σ' = (Ok true, σ') ∧ checkDataset name dir σ' = (Ok true, σ').
Proof.
  intros Hne H.
  destruct (downloadDataset_ok_leaves_both _ _ _ _ _ _ _ Hne H) as [Hd Hf].
  assert (Htd : truthy dir = true) by by destruct dir.
  rewrite checkDatasetDir_run, checkDataset_run. unfold checked_dir.
  rewrite Htd, path_truthy, Htd. cbn.
  by rewrite !bool_decide_eq_true_2.
Qed.

Lemma checks_succeed_after_download_witness :
  let σ' := (downloadDataset "u" "d" "f.csv" false empty_world).2 in
  checkDatasetDir "d" σ' = (Ok true, σ') ∧ checkDataset "f.csv" "d" σ' = (Ok true, σ').
Proof.
  refine (checks_succeed_after_download "u" "d" "f.csv" false empty_world "d/f.csv" _ _ _).
  - done.
  - reflexivity.
Defined.

(** X9: whatever its outcome, the download step never changes the class
    attributes, never removes a directory and adds none but [dirToSave], and
    leaves every file other than the target path as it was. *)
Theorem downloadDataset_touches_only_target url dir name ow σ :
  let σ' := (downloadDataset url dir name ow σ).2 in
  cls_urlParanaDataset σ' = cls_urlParanaDataset σ
  ∧ cls_datasetsDir σ' = cls_datasetsDir σ
  ∧ fs_dirs σ ⊆ fs_dirs σ'
  ∧ fs_dirs σ' ⊆ {[dir]} ∪ fs_dirs σ
  ∧ ∀ q, q ≠ dir +:+ "/" +:+ name → fs_files σ' !! q = fs_files σ !! q.
Proof.
  destruct (downloadDataset_frame_all url dir name ow σ)
    as (Hu & Hd & _ & _ & _ & _ & Hdirs & Hfiles).
  cbn zeta. split; [done|]. split; [done|].
  split; [destruct Hdirs as [-> | ->]; [reflexivity|apply union_subseteq_r]|].
  split; [destruct Hdirs as [-> | ->]; [apply union_subseteq_r|reflexivity]|].
  intros q Hq. destruct Hfiles as [-> | (body & _ & ->)]; [done|].
  by apply lookup_insert_ne.
Qed.

Lemma downloadDataset_touches_only_target_witness :
  fs_files (downloadDataset "u" "d" "f.csv" true
              (fresh {["d"]} {["d/g.csv" := "kept"]} noon_5_march serve_all)).2
    !! "d/g.csv"
  = Some "kept".
Proof.
  rewrite (proj2 (proj2 (proj2 (proj2 (downloadDataset_touches_only_target "u" "d" "f.csv"
             true (fresh {["d"]} {["d/g.csv" := "kept"]} noon_5_march serve_all)))))
             "d/g.csv" ltac:(discriminate)).
  reflexivity.
Defined.

(** ** Further properties of the class state and of the fetch operations *)

(** Number of occurrences of a character. *)
Fixpoint count_char (c : ascii) (s : string) : nat :=
  match s with
  | EmptyString => 0
  | String a s' => (if Ascii.eqb a c then 1 else 0) + count_char c s'
  end.

Section SplitFacts.

Lemma prefix_single c a (s : string) :
  String.prefix (String c "") (String a s) = Ascii.eqb a c.
Proof.
  cbn [String.prefix]. destruct (ascii_dec c a) as [->|Hne].
  - rewrite Ascii.eqb_refl. by destruct s.
  - symmetry. apply Ascii.eqb_neq. congruence.
Qed.

Lemma split_go_single_step c a (s : string) :
  split_go (String c "") 0 (String a s)
  = if Ascii.eqb a c
    then ("", (split_go (String c "") 0 s).1 :: (split_go (String c "") 0 s).2)
    else (String a (split_go (String c "") 0 s).1, (split_go (String c "") 0 s).2).
Proof.
  cbn [split_go]. rewrite prefix_single.
  replace (String.length (String c "") - 1) with 0 by reflexivity.
  destruct (Ascii.eqb a c); by destruct (split_go (String c "") 0 s).
Qed.

(** One more piece than separators. *)
Lemma split_length c (s : string) :
  length (split (String c "") s) = S (count_char c s).
Proof.
  unfold split.
  assert (H : length (split_go (String c "") 0 s).2 = count_char c s).
  { induction s as [|a s IH]; [reflexivity|].
    rewrite split_go_single_step. cbn [count_char].
    destruct (Ascii.eqb a c); cbn; by rewrite IH. }
  destruct (split_go (String c "") 0 s) as [h t]. cbn in *. by rewrite H.
Qed.

Lemma split_go_free c (x : string) :
  char_free c x = true → split_go (String c "") 0 x = (x, []).
Proof.
  induction x as [|a x IH]; [reflexivity|].
  intros [Hne Hx]%char_free_cons. rewrite split_go_single_step, (IH Hx).
  apply Ascii.eqb_neq in Hne. by rewrite Hne.
Qed.

Lemma split_go_piece c (x r : string) :
  char_free c x = true →
  split_go (String c "") 0 (x +:+ String c r)
  = (x, (split_go (String c "") 0 r).1 :: (split_go (String c "") 0 r).2).
Proof.
  induction x as [|a x IH].
  - intros _. rewrite app_empty_l, split_go_single_step. by rewrite Ascii.eqb_refl.
  - intros [Hne Hx]%char_free_cons. rewrite app_cons, split_go_single_step, (IH Hx).
    apply Ascii.eqb_neq in Hne. by rewrite Hne.
Qed.

(** Splitting a day/month/year string gives the three pieces back. *)
Lemma split_three (d m y : string) :
  char_free "/" d = true → char_free "/" m = true → char_free "/" y = true →
  split "/" (d +:+ "/" +:+ m +:+ "/" +:+ y) = [d; m; y].
Proof.
  intros Hd Hm Hy. unfold split.
  change (d +:+ "/" +:+ m +:+ "/" +:+ y)
    with (d +:+ String "/" (m +:+ String "/" y)).
  rewrite (split_go_piece "/" d) by done.
  rewrite (split_go_piece "/" m) by done.
  by rewrite (split_go_free "/" y).
Qed.

End SplitFacts.

Section OwnTables.

Lemma downloadParanaCities_run name dir ow σ :
  downloadParanaCitiesWithIBGECodeDataset name dir ow σ
  = downloadDataset ownCitiesUrl (checked_dir σ dir) name ow σ.
Proof.
  unfold downloadParanaCitiesWithIBGECodeDataset, checked_dir, __getUrlOwnDatasets.
  destruct (truthy dir); unfold bind, ret, gets, getDatasetsDir;
    rewrite own_url_fixed; reflexivity.
Qed.

Lemma downloadParanavaiRegion_run name dir ow σ :
  downloadParanavaiRegionCitiesWithIBGECodeDataset name dir ow σ
  = downloadDataset ownCitiesUrl (checked_dir σ dir) name ow σ.
Proof.
  unfold downloadParanavaiRegionCitiesWithIBGECodeDataset, checked_dir,
    __getUrlOwnDatasets.
  destruct (truthy dir); unfold bind, ret, gets, getDatasetsDir;
    rewrite own_url_fixed; reflexivity.
Qed.

End OwnTables.

(** X10: [setDatasetsDir] only stores the new default: [getDatasetsDir]
    returns it, nothing is checked or created, and from then on an empty
    directory argument stands for it, in the existence check as in a
    fetch. *)
Theorem setDatasetsDir_redirects_defaults (d : string) (σ : State) :
  let σ' := set_datasetsDir d σ in
  setDatasetsDir d σ = (Ok tt, σ')
  ∧ getDatasetsDir σ' = (Ok d, σ')
  ∧ fs_dirs σ' = fs_dirs σ
  ∧ fs_files σ' = fs_files σ
  ∧ cls_urlParanaDataset σ' = cls_urlParanaDataset σ
  ∧ checkDatasetDir "" σ' = os_path_isdir d σ'
  ∧ (∀ name, checkDataset name "" σ' = os_path_isfile (d +:+ "/" +:+ name) σ')
  ∧ (∀ name ow, downloadParanaCitiesWithIBGECodeDataset name "" ow σ'
                = downloadDataset ownCitiesUrl d name ow σ').
Proof.
  cbn zeta. split; [reflexivity|]. split; [reflexivity|].
  do 3 (split; [reflexivity|]).
  split; [by rewrite checkDatasetDir_run|].
  split; [intros name; by rewrite checkDataset_run|].
  intros name ow. by rewrite downloadParanaCities_run.
Qed.

(** X11: an explicit date with fewer than two '/' has no third piece: the
    regional fetch raises [IndexError] before anything is stored, printed or
    fetched. *)
Theorem parana_short_date_raises name tDate dir wd ow σ :
  tDate ≠ "" →
  count_char "/" tDate < 2 →
  downloadParanaDataset name tDate dir wd ow σ = (Raise IndexError, σ).
Proof.
  intros Hne Hcount.
  apply downloadParanaDataset_raise.
  assert (Ht : truthy tDate = true) by by destruct tDate.
  assert (Hnone : split "/" tDate !! 2 = None).
  { apply lookup_ge_None. rewrite (split_length "/" tDate). lia. }
  unfold paranaDateFragments, index, bind, raise. by rewrite Ht, Hnone.
Qed.

Lemma parana_short_date_raises_witness :
  downloadParanaDataset "p" "05/03" "" false false empty_world
  = (Raise IndexError, empty_world).
Proof.
  apply parana_short_date_raises; [done|]. cbn. lia.
Defined.

(** X12: an explicit date is used verbatim, without any validation: for any
    three pieces d, m, y without '/' (and m, y without '#'), on a class whose
    template is still the original one, the date "d/m/y" makes the regional
    fetch store the template filled with "y-m" and "d_m_y" and run the
    download step on it, with the file named after "d_m_y" on request. *)
Theorem parana_explicit_date_used_verbatim name d m y dir wd ow σ :
  cls_urlParanaDataset σ = urlParanaDataset0 →
  char_free "/" d = true → char_free "/" m = true → char_free "/" y = true →
  char_free "#" m = true → char_free "#" y = true →
  let url := paranaUrl (y +:+ "-" +:+ m) (d +:+ "_" +:+ m +:+ "_" +:+ y) in
  downloadParanaDataset name (d +:+ "/" +:+ m +:+ "/" +:+ y) dir wd ow σ
  = downloadDataset url (checked_dir σ dir)
      (if wd then name +:+ "_" +:+ (d +:+ "_" +:+ m +:+ "_" +:+ y) +:+ ".csv"
       else name +:+ ".csv") ow
      (set_urlParanaDataset url σ).
Proof.
  intros Hu Hd Hm Hy Hm' Hy' url.
  assert (Hfr : paranaDateFragments (d +:+ "/" +:+ m +:+ "/" +:+ y) σ
              = (Ok (y +:+ "-" +:+ m, d +:+ "_" +:+ m +:+ "_" +:+ y), σ)).
  { apply paranaDateFragments_explicit; rewrite ?split_three by done; try done.
    by destruct d. }
  rewrite (downloadParanaDataset_run _ _ _ _ _ _ _ _ Hfr). cbn zeta.
  rewrite Hu, replace_pristine; [done|].
  rewrite !char_free_app, Hy', Hm'. reflexivity.
Qed.

Lemma parana_explicit_date_used_verbatim_witness :
  cls_urlParanaDataset
    (downloadParanaDataset "p" "31/12/2020" "" false false empty_world).2
  = "https://www.saude.pr.gov.br/sites/default/arquivos_restritos/files/documento/2020-12/informe_epidemiologico_31_12_2020_geral.csv".
Proof.
  pose proof (parana_explicit_date_used_verbatim "p" "31" "12" "2020" "" false false
                empty_world eq_refl eq_refl eq_refl eq_refl eq_refl eq_refl) as H.
  cbn zeta in H.
  change ("31" +:+ "/" +:+ "12" +:+ "/" +:+ "2020") with "31/12/2020" in H.
  rewrite H, downloadDataset_keeps_url. vm_compute. reflexivity.
Defined.

(** X13: once the stored URL has no placeholder left, a later regional fetch
    for another date still downloads the stored URL, while the file name is
    built from the later call's date. *)
Theorem parana_later_call_old_url_new_file_name name tDate dir wd ow σ ym td :
  placeholder_free (cls_urlParanaDataset σ) →
  paranaDateFragments tDate σ = (Ok (ym, td), σ) →
  downloadParanaDataset name tDate dir wd ow σ
  = downloadDataset (cls_urlParanaDataset σ) (checked_dir σ dir)
      (if wd then name +:+ "_" +:+ td +:+ ".csv" else name +:+ ".csv") ow σ.
Proof.
  intros [H1 H2] Hfr.
  rewrite (downloadParanaDataset_run _ _ _ _ _ _ _ _ Hfr). cbn zeta.
  rewrite (replace_absent "#VAR1#") by done.
  rewrite (replace_absent "#VAR2#") by done.
  by rewrite set_urlParanaDataset_same.
Qed.

Lemma parana_later_call_old_url_new_file_name_witness :
  let σ1 := (downloadParanaDataset "p" "05/03/2021" "" true false empty_world).2 in
  fetched (downloadParanaDataset "p" "06/03/2021" "" true false σ1).2
  = [(paranaUrl "2021-03" "05_03_2021", "./datasets-covid/p_05_03_2021.csv");
     (paranaUrl "2021-03" "05_03_2021", "./datasets-covid/p_06_03_2021.csv")].
Proof.
  cbn zeta.
  rewrite (parana_later_call_old_url_new_file_name "p" "06/03/2021" "" true false
             (downloadParanaDataset "p" "05/03/2021" "" true false empty_world).2
             "2021-03" "06_03_2021").
  - vm_compute. reflexivity.
  - split; vm_compute; reflexivity.
  - vm_compute. reflexivity.
Defined.

(** X14: when the regional fetch returns, the path is the given directory
    (the default one for an empty argument), a slash, and the file name with
    ".csv" appended, after "_" and the day fragment on request. *)
Theorem parana_returned_path name tDate dir wd ow σ ym td p σ' :
  paranaDateFragments tDate σ = (Ok (ym, td), σ) →
  downloadParanaDataset name tDate dir wd ow σ = (Ok p, σ') →
  p = (if truthy dir then dir else cls_datasetsDir σ) +:+ "/"
      +:+ (if wd then name +:+ "_" +:+ td +:+ ".csv" else name +:+ ".csv").
Proof.
  intros Hfr. rewrite (downloadParanaDataset_run _ _ _ _ _ _ _ _ Hfr). cbn zeta.
  apply downloadDataset_ok_path.
Qed.

Lemma parana_returned_path_witness :
  (downloadParanaDataset default_parana_csvFileName "05/03/2021" "" true false
     empty_world).1
  = Ok "./datasets-covid/daily_newsletter_covid_parana_05_03_2021.csv".
Proof.
  destruct (downloadParanaDataset default_parana_csvFileName "05/03/2021" "" true false
              empty_world) as [[p|e] σ'] eqn:H.
  - rewrite (parana_returned_path default_parana_csvFileName "05/03/2021" "" true false
               empty_world "2021-03" "05_03_2021" p σ' eq_refl H).
    reflexivity.
  - exfalso. vm_compute in H. discriminate H.
Defined.

(** X15: the kind is matched without regard to case, and a recognised kind
    only decides the file name: the suffix "confirmed_cases", "deaths" or
    "recovered" is appended, then on request "_" and today's date (the 15:00
    rule plays no part here), then ".csv"; no warning is printed before the
    download step, which runs on the confirmed-cases URL. *)
Theorem hopkins_kind_case_insensitive_file_name
    (name kind dir : string) (wd ow : bool) (σ : State) :
  let file suffix :=
    if wd then (name +:+ suffix) +:+ "_" +:+ strftime "%d_%m_%Y" (clock σ) +:+ ".csv"
    else (name +:+ suffix) +:+ ".csv" in
  let run suffix :=
    downloadDataset hopkinsConfirmedUrl (checked_dir σ dir) (file suffix) ow σ in
  (lower kind = "confirmed" →
   downloadHopkinsDataset name kind dir wd ow σ = run "confirmed_cases")
  ∧ (lower kind = "deaths" →
     downloadHopkinsDataset name kind dir wd ow σ = run "deaths")
  ∧ (lower kind = "recovered" →
     downloadHopkinsDataset name kind dir wd ow σ = run "recovered").
Proof.
  cbn zeta. rewrite downloadHopkinsDataset_run. unfold hopkins_suffix.
  repeat split; intros ->; reflexivity.
Qed.

Lemma hopkins_kind_case_insensitive_file_name_witness :
  (downloadHopkinsDataset default_hopkins_csvFileName "Recovered" "" true false
     (set_clock (mkDatetime 2021 3 5 9 30 0 0) empty_world)).1
  = Ok "./datasets-covid/hopkins_global_recovered_05_03_2021.csv".
Proof.
  rewrite (proj2 (proj2 (hopkins_kind_case_insensitive_file_name
             default_hopkins_csvFileName "Recovered" "" true false
             (set_clock (mkDatetime 2021 3 5 9 30 0 0) empty_world))) eq_refl).
  vm_compute. reflexivity.
Defined.

(** X16: the stored Parana URL is changed by the regional fetch alone and the
    default directory by [setDatasetsDir] alone: the setter leaves the URL,
    the global-series fetch and the two reference-table fetches leave both,
    and the regional fetch leaves the default directory, whatever the
    outcome of the call. *)
Theorem class_state_changed_only_by_owner (σ : State) :
  (∀ d, cls_urlParanaDataset (setDatasetsDir d σ).2 = cls_urlParanaDataset σ)
  ∧ (∀ name kind dir wd ow,
       cls_urlParanaDataset (downloadHopkinsDataset name kind dir wd ow σ).2
       = cls_urlParanaDataset σ
       ∧ cls_datasetsDir (downloadHopkinsDataset name kind dir wd ow σ).2
         = cls_datasetsDir σ)
  ∧ (∀ name dir ow,
       cls_urlParanaDataset (downloadParanaCitiesWithIBGECodeDataset name dir ow σ).2
       = cls_urlParanaDataset σ
       ∧ cls_datasetsDir (downloadParanaCitiesWithIBGECodeDataset name dir ow σ).2
         = cls_datasetsDir σ)
  ∧ (∀ name dir ow,
       cls_urlParanaDataset
         (downloadParanavaiRegionCitiesWithIBGECodeDataset name dir ow σ).2
       = cls_urlParanaDataset σ
       ∧ cls_datasetsDir
           (downloadParanavaiRegionCitiesWithIBGECodeDataset name dir ow σ).2
         = cls_datasetsDir σ)
  ∧ (∀ name tDate dir wd ow,
       cls_datasetsDir (downloadParanaDataset name tDate dir wd ow σ).2
       = cls_datasetsDir σ).
Proof.
  split; [done|]. split; [|split; [|split]].
  - intros name kind dir wd ow. rewrite downloadHopkinsDataset_run. cbn zeta.
    match goal with |- context [downloadDataset ?u ?d ?n ?o ?s] =>
      destruct (downloadDataset_frame_all u d n o s) as (-> & -> & _) end.
    by destruct (hopkins_suffix kind).
  - intros name dir ow. rewrite downloadParanaCities_run.
    by destruct (downloadDataset_frame_all ownCitiesUrl (checked_dir σ dir) name ow σ)
      as (-> & -> & _).
  - intros name dir ow. rewrite downloadParanavaiRegion_run.
    by destruct (downloadDataset_frame_all ownCitiesUrl (checked_dir σ dir) name ow σ)
      as (-> & -> & _).
  - intros name tDate dir wd ow.
    pose proof (paranaDateFragments_state tDate σ) as Hst.
    destruct (paranaDateFragments tDate σ) as [[[ym td]|e] σ'] eqn:Hfr;
      cbn in Hst; subst σ'.
    + rewrite (downloadParanaDataset_run _ _ _ _ _ _ _ _ Hfr). cbn zeta.
      match goal with |- context [downloadDataset ?u ?d ?n ?o ?s] =>
        destruct (downloadDataset_frame_all u d n o s) as (_ & -> & _) end.
      reflexivity.
    + by rewrite (downloadParanaDataset_raise _ _ _ _ _ _ _ Hfr).
Qed.

(** X17: the regional fetch rewrites the stored URL before the download step
    and never restores it: once the date is resolved, the stored URL is the
    old one with both [replace] calls applied, whether the download then
    succeeds or raises. *)
Theorem parana_template_rewritten_whatever_the_download name tDate dir wd ow σ ym td :
  paranaDateFragments tDate σ = (Ok (ym, td), σ) →
  cls_urlParanaDataset (downloadParanaDataset name tDate dir wd ow σ).2
  = replace "#VAR2#" td (replace "#VAR1#" ym (cls_urlParanaDataset σ)).
Proof.
  intros Hfr. rewrite (downloadParanaDataset_run _ _ _ _ _ _ _ _ Hfr). cbn zeta.
  by rewrite downloadDataset_keeps_url.
Qed.

Lemma parana_template_rewritten_whatever_the_download_witness :
  let σ := fresh ∅ ∅ noon_5_march (λ _, None) in
  (downloadParanaDataset "p" "05/03/2021" "" false false σ).1 = Raise URLError
  ∧ cls_urlParanaDataset (downloadParanaDataset "p" "05/03/2021" "" false false σ).2
    = paranaUrl "2021-03" "05_03_2021".
Proof.
  cbn zeta. split; [vm_compute; reflexivity|].
  rewrite (parana_template_rewritten_whatever_the_download "p" "05/03/2021" "" false
             false (fresh ∅ ∅ noon_5_march (λ _, None)) "2021-03" "05_03_2021" eq_refl).
  vm_compute. reflexivity.
Defined.

(** X18: before 15:00 on any day but the first of a month, the date
    resolved without an explicit date is the previous day of the same month:
    both fragments then carry the clock's year and month. *)
Theorem parana_yesterday_within_month (σ : State) :
  let now := clock σ in
  hour now < 15 →
  1 < day now →
  paranaDateFragments "" σ
  = (Ok (dec (year now) +:+ "-" +:+ pad2 (month now),
         pad2 (day now - 1) +:+ "_" +:+ pad2 (month now) +:+ "_" +:+ dec (year now)),
     σ).
Proof.
  cbn zeta. intros Hh Hd.
  rewrite (paranaDateFragments_yesterday σ
             (mkDatetime (year (clock σ)) (month (clock σ)) (day (clock σ) - 1)
                (hour (clock σ)) (minute (clock σ)) (second (clock σ))
                (microsecond (clock σ)))).
  - by rewrite strftime_year_month_eq, strftime_day_month_year_eq.
  - apply Nat.leb_gt. lia.
  - unfold minus_one_day.
    destruct (Nat.ltb_spec 1 (day (clock σ))); [reflexivity|lia].
Qed.

Lemma parana_yesterday_within_month_witness :
  paranaDateFragments "" (set_clock (mkDatetime 2021 3 5 9 0 0 0) empty_world)
  = (Ok ("2021-03", "04_03_2021"), set_clock (mkDatetime 2021 3 5 9 0 0 0) empty_world).
Proof.
  refine (parana_yesterday_within_month
            (set_clock (mkDatetime 2021 3 5 9 0 0 0) empty_world) _ _); cbn; lia.
Defined.
